(** * MVola API wrapper (src/main.ts): a model of the request handler

    The program is one Deno module: a configuration object, the two helpers
    [authenticateMvola] and [initiateMvolaPayment], and the exported request
    handler [fetch].  Everything the module obtains from the platform (the
    environment, the outbound HTTP client, the random UUID, the clock, the
    inbound request) is gathered in explicit records, and the handler is a
    function from those to a response together with the trace of its
    effects (console lines and outbound calls). *)

From Stdlib Require Import List String Ascii ZArith NArith Bool Lia.
From Stdlib Require DecimalString.
Import ListNotations.
Open Scope string_scope.
Open Scope Z_scope.
Set Warnings "-register-all".

(** ** JavaScript values

    The values the handler manipulates are those produced by JSON parsing,
    plus [undefined] (the result of reading a property that is absent).
    A string is the sequence of bytes of its UTF-8 text; a surrogate that
    stands alone, which an escape in JSON text can produce, is the three
    bytes of its generalised encoding (0xED, then a byte in 0xA0..0xBF,
    then one in 0x80..0xBF).  An object keeps its properties in
    enumeration order. *)

Module Js.

(** The decimal digits of an integer.  This is what [Number::toString]
    prints for the integers the program makes itself: an array index and
    an HTTP status code (an unsigned short). *)
Definition string_of_Z (n : Z) : string :=
  DecimalString.NilZero.string_of_int (Z.to_int n).

(** A number is a double.  The program does no arithmetic on numbers: it
    tests one for truthiness and prints it, in JSON text and in template
    literals.  A number is therefore given by the text [Number::toString]
    prints for it, which determines it up to the sign of zero: the number
    parsed from [9223372036854775808] is [Num] of the digits
    9223372036854776000, the one parsed from [1e21] prints 1e+21, the one
    parsed from [3600.50] prints 3600.5, both zeros print 0, and the
    overflow of [1e999] prints Infinity. *)
Inductive number : Type :=
| Num (text : string).

Definition number_text (x : number) : string :=
  match x with Num text => text end.

(** The number of an HTTP status code, read from a response or written as
    a literal in the source: its text is its decimal digits. *)
Definition integer (n : Z) : number := Num (string_of_Z n).

Coercion integer : Z >-> number.

Definition is_finite (x : number) : bool :=
  negb ((number_text x =? "Infinity") || (number_text x =? "-Infinity")
        || (number_text x =? "NaN"))%string.

Inductive value : Type :=
| VUndefined
| VNull
| VBool (b : bool)
| VNum (x : number)
| VStr (s : string)
| VArr (items : list value)
| VObj (props : list (string * value)).

(** An exception object: every value thrown in this program is an [Error],
    of which the handler reads [message] only. *)
Record exn : Type := Exn { exn_name : string; exn_message : string }.

Definition TypeError (msg : string) : exn := Exn "TypeError" msg.
Definition RangeError (msg : string) : exn := Exn "RangeError" msg.
Definition DOMException (msg : string) : exn := Exn "InvalidCharacterError" msg.

(** [ToBoolean]: what [!v] and [a && b] test. *)
Definition truthy (v : value) : bool :=
  match v with
  | VUndefined | VNull => false
  | VBool b => b
  | VNum x => negb ((number_text x =? "0") || (number_text x =? "NaN"))%string
  | VStr s => negb (s =? "")%string
  | VArr _ | VObj _ => true
  end.

Definition typeof (v : value) : string :=
  match v with
  | VUndefined => "undefined"
  | VNull => "object"
  | VBool _ => "boolean"
  | VNum _ => "number"
  | VStr _ => "string"
  | VArr _ | VObj _ => "object"
  end.

(** Own-property lookup in an object's property list. *)
Fixpoint lookup (k : string) (props : list (string * value)) : option value :=
  match props with
  | [] => None
  | (k', v) :: rest => if (k' =? k)%string then Some v else lookup k rest
  end.

Definition has_own (k : string) (props : list (string * value)) : bool :=
  match lookup k props with Some _ => true | None => false end.

(** [ToString], as a template literal applies it.  An array is joined with
    commas, [null] and [undefined] elements giving the empty text; a plain
    object gives its class tag, unless it carries an own [toString]
    property: parsed data is never callable, [Object.prototype.valueOf]
    returns the object itself, and the conversion throws.  [None] stands
    for that [TypeError]. *)
Fixpoint toString (v : value) : option string :=
  match v with
  | VUndefined => Some "undefined"
  | VNull => Some "null"
  | VBool true => Some "true"
  | VBool false => Some "false"
  | VNum x => Some (number_text x)
  | VStr s => Some s
  | VArr items =>
      (fix join (first : bool) (l : list value) : option string :=
         match l with
         | [] => Some ""
         | x :: rest =>
             let sep := if first then "" else "," in
             let elt := match x with
                        | VUndefined | VNull => Some ""
                        | _ => toString x
                        end in
             match elt, join false rest with
             | Some a, Some b => Some (sep ++ a ++ b)
             | _, _ => None
             end
         end) true items
  | VObj props =>
      if has_own "toString" props then None else Some "[object Object]"
  end.

Definition template (pre : string) (v : value) : exn + string :=
  match toString v with
  | Some s => inr (pre ++ s)
  | None => inl (TypeError "Cannot convert object to primitive value")
  end.

(** A property key as the source writes it: [o.name] or [o[i]]. *)
Inductive key : Type :=
| KName (name : string)
| KIndex (i : nat).

Definition key_text (k : key) : string :=
  match k with
  | KName s => s
  | KIndex i => string_of_Z (Z.of_nat i)
  end.

(** [v.k] and [v[i]].  Reading from [undefined] or [null] throws; a
    primitive boxes and has none of the names this program reads; an array
    answers an index with its element; an object answers with its own
    property.  The names read here ([debitParty], [value], [access_token],
    [expires_in]) are defined by no prototype, so own lookup is the whole
    lookup.  The character of a string at an index is given as the byte at
    that place. *)
Definition get (v : value) (k : key) : exn + value :=
  match v with
  | VUndefined =>
      inl (TypeError ("Cannot read properties of undefined (reading '"
                        ++ key_text k ++ "')"))
  | VNull =>
      inl (TypeError ("Cannot read properties of null (reading '"
                        ++ key_text k ++ "')"))
  | VBool _ | VNum _ => inr VUndefined
  | VStr s =>
      match k with
      | KIndex i =>
          match String.get i s with
          | Some c => inr (VStr (String c EmptyString))
          | None => inr VUndefined
          end
      | KName _ => inr VUndefined
      end
  | VArr items =>
      match k with
      | KIndex i => inr (nth i items VUndefined)
      | KName _ => inr VUndefined
      end
  | VObj props =>
      match lookup (key_text k) props with
      | Some x => inr x
      | None => inr VUndefined
      end
  end.

(** Give [x] to every binding of [k]. *)
Fixpoint replace (k : string) (x : value) (props : list (string * value))
  : list (string * value) :=
  match props with
  | [] => []
  | (k', v) :: rest =>
      (k', if (k' =? k)%string then x else v) :: replace k x rest
  end.

Definition assign (k : string) (x : value) (props : list (string * value))
  : list (string * value) :=
  if has_own k props then replace k x props else (props ++ [(k, x)])%list.

(** [v.k = x] in strict mode (a module is strict code).  The result is the
    object after the assignment.  On an object the property is overwritten
    in place, or appended when new.  On an array a named property is no
    element: neither serialisation nor any later read of this program sees
    it.  On [null], [undefined] and on primitives the assignment throws. *)
Definition set (v : value) (k : string) (x : value) : exn + value :=
  match v with
  | VUndefined =>
      inl (TypeError ("Cannot set properties of undefined (setting '"
                        ++ k ++ "')"))
  | VNull =>
      inl (TypeError ("Cannot set properties of null (setting '"
                        ++ k ++ "')"))
  | VBool _ | VNum _ | VStr _ =>
      inl (TypeError ("Cannot create property '" ++ k ++ "' on "
                        ++ typeof v ++ " '"
                        ++ match toString v with Some s => s | None => "" end
                        ++ "'"))
  | VArr items => inr (VArr items)
  | VObj props => inr (VObj (assign k x props))
  end.

(** *** [JSON.stringify]

    [gap] is the indentation unit (empty for the compact form, two spaces
    for [JSON.stringify(v, null, 2)]) and [indent] the current indentation.
    A property whose value is [undefined] is left out of an object; in an
    array it is written [null].  In a string the quote, the backslash and
    the control characters are escaped, and so is a lone surrogate.  A number that is not finite is written
    [null].  Parsed data carries no callable [toJSON].
    The program never serialises [undefined] itself. *)

Definition dquote : ascii := "034"%char.
Definition newline : string := String "010"%char EmptyString.

Definition hex_digit (n : N) : ascii :=
  nth (N.to_nat n) (list_ascii_of_string "0123456789abcdef") "0"%char.

Definition escape_char (c : ascii) : string :=
  let n := N_of_ascii c in
  if (n =? 34)%N then String "\"%char (String dquote EmptyString)
  else if (n =? 92)%N then "\\"
  else if (n =? 8)%N then "\b"
  else if (n =? 12)%N then "\f"
  else if (n =? 10)%N then "\n"
  else if (n =? 13)%N then "\r"
  else if (n =? 9)%N then "\t"
  else if (n <? 32)%N then
    "\u00" ++ String (hex_digit (n / 16)) (String (hex_digit (n mod 16)) EmptyString)
  else String c EmptyString.

(** The code unit of a lone surrogate, from the three bytes that stand for
    it in a string. *)
Definition lone_surrogate (c1 c2 c3 : ascii) : option N :=
  let b1 := N_of_ascii c1 in
  let b2 := N_of_ascii c2 in
  let b3 := N_of_ascii c3 in
  if ((b1 =? 237) && (160 <=? b2) && (b2 <=? 191)
      && (128 <=? b3) && (b3 <=? 191))%N
  then Some (55296 + (b2 - 160) * 64 + (b3 - 128))%N
  else None.

Definition hex4 (u : N) : string :=
  String (hex_digit (u / 4096))
    (String (hex_digit ((u / 256) mod 16))
       (String (hex_digit ((u / 16) mod 16))
          (String (hex_digit (u mod 16)) EmptyString)))%N.

Fixpoint escape (s : string) : string :=
  match s with
  | EmptyString => EmptyString
  | String c rest =>
      match rest with
      | String c2 (String c3 rest') =>
          match lone_surrogate c c2 c3 with
          | Some u => "\u" ++ hex4 u ++ escape rest'
          | None => escape_char c ++ escape rest
          end
      | _ => escape_char c ++ escape rest
      end
  end.

Definition quote (s : string) : string :=
  String dquote (escape s ++ String dquote EmptyString).

Fixpoint stringify (gap indent : string) (v : value) : string :=
  let inner := indent ++ gap in
  let compact := (gap =? "")%string in
  let sep := if compact then "," else "," ++ newline ++ inner in
  let wrap (l r : string) (parts : list string) : string :=
    match parts with
    | [] => l ++ r
    | _ =>
        if compact then l ++ String.concat sep parts ++ r
        else l ++ newline ++ inner ++ String.concat sep parts
               ++ newline ++ indent ++ r
    end in
  match v with
  | VUndefined | VNull => "null"
  | VBool true => "true"
  | VBool false => "false"
  | VNum x => if is_finite x then number_text x else "null"
  | VStr s => quote s
  | VArr items =>
      wrap "[" "]"
        ((fix elements (l : list value) : list string :=
            match l with
            | [] => []
            | x :: rest => stringify gap inner x :: elements rest
            end) items)
  | VObj props =>
      wrap "{" "}"
        ((fix members (l : list (string * value)) : list string :=
            match l with
            | [] => []
            | (_, VUndefined) :: rest => members rest
            | (k, x) :: rest =>
                (quote k ++ (if compact then ":" else ": ")
                   ++ stringify gap inner x) :: members rest
            end) props)
  end.

Definition JSON_stringify (v : value) : string := stringify "" "" v.
Definition JSON_stringify_pretty (v : value) : string := stringify "  " "" v.

(** *** [btoa]

    [btoa] takes a string of code points below 256 and throws on any
    other.  In UTF-8 those are the one-byte characters and the two-byte
    ones led by 0xC2 or 0xC3. *)

Fixpoint latin1 (s : string) : option (list N) :=
  match s with
  | EmptyString => Some []
  | String c rest =>
      let n := N_of_ascii c in
      if (n <? 128)%N then option_map (cons n) (latin1 rest)
      else
        match rest with
        | String d rest' =>
            let m := N_of_ascii d in
            if ((128 <=? m) && (m <? 192))%N then
              if (n =? 194)%N then option_map (cons m) (latin1 rest')
              else if (n =? 195)%N then option_map (cons (m + 64)%N) (latin1 rest')
              else None
            else None
        | EmptyString => None
        end
  end.

Definition b64_digit (n : N) : ascii :=
  nth (N.to_nat n)
    (list_ascii_of_string
       "ABCDEFGHIJKLMNOPQRSTUVWXYZabcdefghijklmnopqrstuvwxyz0123456789+/")
    "="%char.

Fixpoint base64 (l : list N) : string :=
  let d (n : N) (rest : string) := String (b64_digit n) rest in
  (match l with
   | [] => EmptyString
   | [a] =>
       d (a / 4) (d ((a mod 4) * 16) "==")
   | [a; b] =>
       d (a / 4) (d ((a mod 4) * 16 + b / 16)
                    (d ((b mod 16) * 4) "="))
   | a :: b :: c :: rest =>
       d (a / 4) (d ((a mod 4) * 16 + b / 16)
                    (d ((b mod 16) * 4 + c / 64)
                       (d (c mod 64) (base64 rest))))
   end)%N.

Definition btoa (s : string) : exn + string :=
  match latin1 s with
  | Some bytes => inr (base64 bytes)
  | None =>
      inl (DOMException "Cannot encode string: string contains characters outside of the Latin1 range")
  end.

End Js.

Import Js.

(** ** The platform

    What the runtime hands to the module and what the module hands back. *)

Definition Headers : Type := list (string * string).

(** [new URL(request.url)]: the parts of the parsed address. *)
Record URL : Type := {
  origin : string;
  pathname : string;
  searchParams : list (string * string);
  hash : string
}.

(** The inbound request: its method, its parsed address and the outcome of
    [await request.json()], a value or the exception the parse throws. *)
Record Request : Type := {
  req_method : string;
  req_url : URL;
  req_json : exn + value
}.

Definition with_query (q : list (string * string)) (r : Request) : Request :=
  {| req_method := req_method r;
     req_url := {| origin := origin (req_url r);
                   pathname := pathname (req_url r);
                   searchParams := q;
                   hash := hash (req_url r) |};
     req_json := req_json r |}.

(** The response the handler builds: its status, the [headers] member of
    the init it was built from, and its body. *)
Record Response : Type := {
  status : Z;
  headers : Headers;
  body : option string
}.

Definition null_body_status (s : Z) : bool :=
  (s =? 101) || (s =? 204) || (s =? 205) || (s =? 304).

(** [new Response(body, { status, headers })], as Deno builds it: the
    status defaults to 200; the constructor throws a [RangeError] on a
    status that is neither 101 nor in 200..599, and a [TypeError] on a
    body given with a status that allows none.  [headers] keeps the
    [headers] member of the init; [response_headers] below is the header
    list of the response once built. *)
Definition new_Response (b : option string) (st : option Z) (hs : Headers)
  : exn + Response :=
  let s := match st with Some s => s | None => 200 end in
  if ((s <? 200) || (599 <? s)) && negb (s =? 101) then
    inl (RangeError ("The status provided (" ++ string_of_Z s
                       ++ ") is not equal to 101 and outside the range [200, 599]"))
  else
    match b with
    | Some _ =>
        if null_body_status s then
          inl (TypeError "Response with null body status cannot have body")
        else inr {| status := s; headers := hs; body := b |}
    | None => inr {| status := s; headers := hs; body := b |}
    end.

(** Header names compare without regard to the case of ASCII letters. *)
Definition lower (c : ascii) : ascii :=
  let n := N_of_ascii c in
  if ((65 <=? n) && (n <=? 90))%N then ascii_of_N (n + 32) else c.

Fixpoint lowercase (s : string) : string :=
  match s with
  | EmptyString => EmptyString
  | String c rest => String (lower c) (lowercase rest)
  end.

Definition has_header (name : string) (hs : Headers) : bool :=
  existsb (fun kv => (lowercase (fst kv) =? lowercase name)%string) hs.

(** The header list of a response once built: to a body given as a string
    the constructor adds the type of plain text, unless the init names a
    content type. *)
Definition response_headers (r : Response) : Headers :=
  match body r with
  | Some _ =>
      if has_header "Content-Type" (headers r) then headers r
      else (headers r ++ [ ("Content-Type", "text/plain;charset=UTF-8") ])%list
  | None => headers r
  end.

(** An outbound call [fetch(url, init)]. *)
Inductive BodyInit : Type :=
| BodyText (text : string)
| BodyForm (params : list (string * string)).

Record RequestInit : Type := {
  init_method : string;
  init_headers : Headers;
  init_body : BodyInit
}.

(** What an outbound call resolves to: [status], and the outcomes of
    [await response.text()] and [await response.json()]. *)
Record FetchResponse : Type := {
  res_status : Z;
  res_text : exn + string;
  res_json : exn + value
}.

Definition res_ok (r : FetchResponse) : bool :=
  (200 <=? res_status r) && (res_status r <=? 299).

(** The runtime: [Deno.env.get], the global [fetch] (an answer, or the
    exception it rejects with, for each call), [crypto.randomUUID()] and
    [new Date().toISOString()]. *)
Record Runtime : Type := {
  env_get : string -> option string;
  global_fetch : string -> RequestInit -> exn + FetchResponse;
  randomUUID : string;
  now_ISOString : string
}.

(** ** Effects

    A computation yields the trace of what it did and either the exception
    it throws or its result. *)

Inductive LogArg : Type :=
| LogVal (v : value)
| LogErr (e : exn).

(** [Fetch url init] records an invocation of the global [fetch], whatever
    its answer. *)
Inductive Event : Type :=
| ConsoleLog (args : list LogArg)
| ConsoleError (args : list LogArg)
| Fetch (url : string) (init : RequestInit).

Definition M (A : Type) : Type := (list Event * (exn + A))%type.

Definition trace {A} (m : M A) : list Event := fst m.
Definition outcome {A} (m : M A) : exn + A := snd m.

Definition ret {A} (a : A) : M A := ([], inr a).
Definition throw {A} (e : exn) : M A := ([], inl e).

Definition bind {A B} (m : M A) (k : A -> M B) : M B :=
  match outcome m with
  | inl e => (trace m, inl e)
  | inr a => ((trace m ++ trace (k a))%list, outcome (k a))
  end.

(** [try { m } catch (error) { h error }] *)
Definition try_catch {A} (m : M A) (h : exn -> M A) : M A :=
  match outcome m with
  | inl e => ((trace m ++ trace (h e))%list, outcome (h e))
  | inr a => (trace m, inr a)
  end.

Definition lift {A} (r : exn + A) : M A := ([], r).

Definition console_log (args : list LogArg) : M unit :=
  ([ConsoleLog args], inr tt).
Definition console_error (args : list LogArg) : M unit :=
  ([ConsoleError args], inr tt).

(** Sequencing of steps that may throw but have no effect. *)
Definition and_then {A B} (r : exn + A) (k : A -> exn + B) : exn + B :=
  match r with
  | inl e => inl e
  | inr a => k a
  end.

Declare Scope js_scope.
Delimit Scope js_scope with js.
Notation "x <- m ;; k" := (bind m (fun x => k))
  (at level 100, m at next level, right associativity) : js_scope.
Notation "m ;; k" := (bind m (fun _ => k))
  (at level 100, right associativity) : js_scope.
Notation "'let?' x := r 'in' k" := (and_then r (fun x => k))
  (at level 10, x name, r at level 100, k at level 200) : js_scope.
Open Scope js_scope.

(** ** The module *)

Section Program.

Variable rt : Runtime.

(** [x || d] on an optional string: [undefined] and the empty string
    both give [d]. *)
Definition or_default (x : option string) (d : string) : string :=
  match x with
  | Some s => if (s =? "")%string then d else s
  | None => d
  end.

Record Config : Type := {
  BASE_URL : string;
  TOKEN_ENDPOINT : string;
  MERCHANT_PAY_ENDPOINT : string;
  CONSUMER_KEY : string;
  CONSUMER_SECRET : string
}.

Definition MVOLA_CONFIG : Config := {|
  BASE_URL := "https://devapi.mvola.mg";
  TOKEN_ENDPOINT := "/token";
  MERCHANT_PAY_ENDPOINT := "/mvola/mm/transactions/type/merchantpay/1.0.0/";
  CONSUMER_KEY := or_default (env_get rt "MVOLA_CONSUMER_KEY") "";
  CONSUMER_SECRET := or_default (env_get rt "MVOLA_CONSUMER_SECRET") ""
|}.

Definition token_url : string :=
  BASE_URL MVOLA_CONFIG ++ TOKEN_ENDPOINT MVOLA_CONFIG.
Definition merchant_pay_url : string :=
  BASE_URL MVOLA_CONFIG ++ MERCHANT_PAY_ENDPOINT MVOLA_CONFIG.

(** [await fetch(url, init)] *)
Definition await_fetch (url : string) (init : RequestInit) : M FetchResponse :=
  ([Fetch url init], global_fetch rt url init).

Definition token_init (credentials : string) : RequestInit := {|
  init_method := "POST";
  init_headers :=
    [ ("Authorization", "Basic " ++ credentials);
      ("Content-Type", "application/x-www-form-urlencoded");
      ("Cache-Control", "no-cache") ];
  init_body :=
    BodyForm [ ("grant_type", "client_credentials");
               ("scope", "EXT_INT_MVOLA_SCOPE") ]
|}.

(** [authenticateMvola]: the parsed token response, or [null]. *)
Definition authenticateMvola : M value :=
  try_catch
    (credentials <-
       lift (btoa (CONSUMER_KEY MVOLA_CONFIG ++ ":"
                     ++ CONSUMER_SECRET MVOLA_CONFIG)) ;;
     response <- await_fetch token_url (token_init credentials) ;;
     if negb (res_ok response) then
       text <- lift (res_text response) ;;
       console_error [ LogVal (VStr "Auth failed:");
                       LogVal (VNum (res_status response));
                       LogVal (VStr text) ] ;;
       ret VNull
     else
       lift (res_json response))
    (fun error =>
       console_error [ LogVal (VStr "Auth error:"); LogErr error ] ;;
       ret VNull).

(** The result of [initiateMvolaPayment], the object [{ status, data }]. *)
Record PaymentResult : Type := {
  pr_status : Z;
  pr_data : value
}.

Definition PaymentResult_value (r : PaymentResult) : value :=
  VObj [ ("status", VNum (pr_status r)); ("data", pr_data r) ].

Definition header_object (hs : Headers) : value :=
  VObj (map (fun kv => (fst kv, VStr (snd kv))) hs).

Definition merchant_pay_init (hs : Headers) (paymentData : value)
  : RequestInit := {|
  init_method := "POST";
  init_headers := hs;
  init_body := BodyText (JSON_stringify paymentData)
|}.

(** The [headers] object of [initiateMvolaPayment], its properties
    evaluated in order; reading [paymentData.debitParty[0].value] or
    converting a value to text may throw. *)
Definition payment_headers (paymentData accessToken : value) : exn + Headers :=
  let? authorization := template "Bearer " accessToken in
  let? debitParty := get paymentData (KName "debitParty") in
  let? first := get debitParty (KIndex 0) in
  let? payer := get first (KName "value") in
  let? account := template "msisdn;" payer in
  inr [ ("Authorization", authorization);
        ("Version", "1.0");
        ("X-CorrelationID", randomUUID rt);
        ("UserLanguage", "mg");
        ("UserAccountIdentifier", account);
        ("partnerName", "Test Partner");
        ("Content-Type", "application/json");
        ("X-Callback-URL", "");
        ("Cache-Control", "no-cache") ].

(** [initiateMvolaPayment]: the whole body is inside the [try], the
    construction of the header object included. *)
Definition initiateMvolaPayment (paymentData : value) (accessToken : value)
  : M PaymentResult :=
  try_catch
    (hs <- lift (payment_headers paymentData accessToken) ;;
     console_log [ LogVal (VStr "=== MVola Payment Request ===") ] ;;
     console_log [ LogVal (VStr "URL:"); LogVal (VStr merchant_pay_url) ] ;;
     console_log [ LogVal (VStr "Headers:");
                   LogVal (VStr (JSON_stringify_pretty (header_object hs))) ] ;;
     console_log [ LogVal (VStr "Body:");
                   LogVal (VStr (JSON_stringify_pretty paymentData)) ] ;;
     response <- await_fetch merchant_pay_url
                   (merchant_pay_init hs paymentData) ;;
     result <- lift (res_json response) ;;
     console_log [ LogVal (VStr "=== MVola Response ===") ] ;;
     console_log [ LogVal (VStr "Status:");
                   LogVal (VNum (res_status response)) ] ;;
     console_log [ LogVal (VStr "Response:");
                   LogVal (VStr (JSON_stringify_pretty result)) ] ;;
     ret {| pr_status := res_status response; pr_data := result |})
    (fun error =>
       console_error [ LogVal (VStr "Payment initiation error:");
                       LogErr error ] ;;
       ret {| pr_status := 500;
              pr_data := VObj [ ("error", VStr (exn_message error)) ] |}).

Definition corsHeaders : Headers :=
  [ ("Access-Control-Allow-Origin", "*");
    ("Access-Control-Allow-Methods", "GET, POST, OPTIONS");
    ("Access-Control-Allow-Headers", "Content-Type, Authorization") ].

(** [{ ...corsHeaders, "Content-Type": t }] *)
Definition cors_with_type (t : string) : Headers :=
  (corsHeaders ++ [ ("Content-Type", t) ])%list.

Definition rocket : string :=
  String "240" (String "159" (String "154" (String "128" EmptyString))).
Definition check_mark : string :=
  String "226" (String "156" (String "133" EmptyString)).

Definition banner : string :=
  rocket ++ " MVola API Wrapper is running!" ++ newline ++ newline
    ++ "Endpoints:" ++ newline
    ++ "- GET /test" ++ newline
    ++ "- POST /auth" ++ newline
    ++ "- POST /payment" ++ newline
    ++ "- GET /status" ++ newline
    ++ "- POST /webhook".

(** [a && b] *)
Definition js_and (a b : value) : value := if truthy a then b else a.

Definition method_not_allowed : M Response :=
  lift (new_Response (Some "Method not allowed") (Some 405) corsHeaders).

Definition authentication_failed : M Response :=
  lift (new_Response
          (Some (JSON_stringify (VObj [ ("error", VStr "Authentication failed") ])))
          (Some 401) (cors_with_type "application/json")).

(** [case "/auth":] *)
Definition case_auth (request : Request) : M Response :=
  if negb (req_method request =? "POST")%string then method_not_allowed
  else
    authResult <- authenticateMvola ;;
    if negb (truthy authResult) then authentication_failed
    else
      token <- lift (get authResult (KName "access_token")) ;;
      expires_in <- lift (get authResult (KName "expires_in")) ;;
      lift (new_Response
              (Some (JSON_stringify
                       (VObj [ ("success", VBool true);
                               ("token", token);
                               ("expires_in", expires_in) ])))
              None (cors_with_type "application/json")).

(** [case "/payment":] *)
Definition case_payment (request : Request) : M Response :=
  if negb (req_method request =? "POST")%string then method_not_allowed
  else
    auth <- authenticateMvola ;;
    if negb (truthy auth) then authentication_failed
    else
      paymentRequest <- lift (req_json request) ;;
      paymentRequest <- lift (set paymentRequest "requestDate" (VStr "")) ;;
      paymentRequest <-
        lift (set paymentRequest
                "requestingOrganisationTransactionReference" (VStr "")) ;;
      paymentRequest <-
        lift (set paymentRequest "originalTransactionReference" (VStr "")) ;;
      access_token <- lift (get auth (KName "access_token")) ;;
      paymentResult <- initiateMvolaPayment paymentRequest access_token ;;
      lift (new_Response
              (Some (JSON_stringify (PaymentResult_value paymentResult)))
              (Some (pr_status paymentResult))
              (cors_with_type "application/json")).

(** [case "/webhook":] *)
Definition case_webhook (request : Request) : M Response :=
  if negb (req_method request =? "POST")%string then method_not_allowed
  else
    webhookData <- lift (req_json request) ;;
    console_log [ LogVal (VStr "Webhook received:"); LogVal webhookData ] ;;
    lift (new_Response
            (Some (JSON_stringify (VObj [ ("received", VBool true) ])))
            None (cors_with_type "application/json")).

(** The [switch (pathname)] of the handler, the body of its [try]. *)
Definition dispatch (request : Request) (pathname : string) : M Response :=
  if (pathname =? "/")%string then
    lift (new_Response (Some banner) None (cors_with_type "text/plain"))
  else if (pathname =? "/test")%string then
    lift (new_Response
            (Some (JSON_stringify
                     (VObj [ ("message", VStr (check_mark ++ " API is working!"));
                             ("timestamp", VStr (now_ISOString rt));
                             ("config",
                              VObj [ ("baseUrl", VStr (BASE_URL MVOLA_CONFIG));
                                     ("hasCredentials",
                                      VBool (truthy
                                               (js_and
                                                  (VStr (CONSUMER_KEY MVOLA_CONFIG))
                                                  (VStr (CONSUMER_SECRET MVOLA_CONFIG)))))
                                   ]) ])))
            None (cors_with_type "application/json"))
  else if (pathname =? "/auth")%string then case_auth request
  else if (pathname =? "/payment")%string then case_payment request
  else if (pathname =? "/webhook")%string then case_webhook request
  else
    lift (new_Response (Some "Not Found") (Some 404) corsHeaders).

Definition internal_error (error : exn) : M Response :=
  console_error [ LogVal (VStr "Handler error:"); LogErr error ] ;;
  lift (new_Response
          (Some (JSON_stringify
                   (VObj [ ("error", VStr "Internal server error");
                           ("message", VStr (exn_message error)) ])))
          (Some 500) (cors_with_type "application/json")).

(** The exported handler [fetch(request)]. *)
Definition fetch (request : Request) : M Response :=
  let url := req_url request in
  let pathname := pathname url in
  let searchParams := searchParams url in
  if (req_method request =? "OPTIONS")%string then
    lift (new_Response None None corsHeaders)
  else
    try_catch (dispatch request pathname) internal_error.

End Program.

(** ** Reading traces *)

(** The outbound calls made to [u], in order. *)
Fixpoint calls_to (u : string) (t : list Event) : list RequestInit :=
  match t with
  | [] => []
  | Fetch u' init :: rest =>
      if (u' =? u)%string then init :: calls_to u rest else calls_to u rest
  | _ :: rest => calls_to u rest
  end.

Definition merchant_pay_calls {A} (rt : Runtime) (m : M A) : list RequestInit :=
  calls_to (merchant_pay_url rt) (trace m).

(** [m] satisfies [P] whenever it returns. *)
Definition ensures {A} (P : A -> Prop) (m : M A) : Prop :=
  match outcome m with
  | inr a => P a
  | inl _ => True
  end.

(** The answer of the token endpoint in a run; none when [btoa] throws
    and no call is made. *)
Definition token_answer (rt : Runtime) : option (exn + FetchResponse) :=
  match btoa (CONSUMER_KEY (MVOLA_CONFIG rt) ++ ":"
                ++ CONSUMER_SECRET (MVOLA_CONFIG rt)) with
  | inr credentials =>
      Some (global_fetch rt (token_url rt) (token_init credentials))
  | inl _ => None
  end.

(** The three ways the token call fails: a transport-level error, a status
    outside 200..299, a body that is not JSON. *)
Inductive token_failure : exn + FetchResponse -> Prop :=
| transport_error (e : exn) : token_failure (inl e)
| non_success_status (res : FetchResponse) :
    res_ok res = false -> token_failure (inr res)
| invalid_json (res : FetchResponse) (e : exn) :
    res_json res = inl e -> token_failure (inr res).

(** The two shapes of a payment result: the provider's status and parsed
    body, or the result made from a caught exception. *)
Definition passed_through (res : FetchResponse) (data : value) : PaymentResult :=
  {| pr_status := res_status res; pr_data := data |}.

Definition synthesized (e : exn) : PaymentResult :=
  {| pr_status := 500; pr_data := VObj [ ("error", VStr (exn_message e)) ] |}.

(** A response carries the three cross-origin headers. *)
Definition has_cors (r : Response) : Prop :=
  In ("Access-Control-Allow-Origin", "*") (headers r)
  /\ In ("Access-Control-Allow-Methods", "GET, POST, OPTIONS") (headers r)
  /\ In ("Access-Control-Allow-Headers", "Content-Type, Authorization")
        (headers r).

(** The interface [MvolaPaymentRequest], as a test on a parsed body:
    three strings, three lists of [{key, value}] pairs of strings, and the
    three correlation fields, each a string when present. *)
Definition is_string (v : value) : bool :=
  match v with VStr _ => true | _ => false end.

Definition is_key_value (v : value) : bool :=
  match v with
  | VObj props =>
      match lookup "key" props, lookup "value" props with
      | Some (VStr _), Some (VStr _) => true
      | _, _ => false
      end
  | _ => false
  end.

Definition is_party (v : value) : bool :=
  match v with VArr items => forallb is_key_value items | _ => false end.

Definition required (p : value -> bool) (k : string)
  (props : list (string * value)) : bool :=
  match lookup k props with Some v => p v | None => false end.

Definition optional (p : value -> bool) (k : string)
  (props : list (string * value)) : bool :=
  match lookup k props with Some v => p v | None => true end.

Definition is_MvolaPaymentRequest (v : value) : bool :=
  match v with
  | VObj props =>
      required is_string "amount" props
      && required is_string "currency" props
      && required is_string "descriptionText" props
      && required is_party "debitParty" props
      && required is_party "creditParty" props
      && required is_party "metadata" props
      && optional is_string "requestDate" props
      && optional is_string "requestingOrganisationTransactionReference" props
      && optional is_string "originalTransactionReference" props
  | _ => false
  end.

(** Property [k] is present and holds the empty string, in every binding. *)
Definition blank (k : string) (props : list (string * value)) : Prop :=
  lookup k props = Some (VStr "")
  /\ forall v, In (k, v) props -> v = VStr "".

(** The three assignments of [case "/payment":] on a property list. *)
Definition blanked (props : list (string * value)) : list (string * value) :=
  assign "originalTransactionReference" (VStr "")
    (assign "requestingOrganisationTransactionReference" (VStr "")
       (assign "requestDate" (VStr "") props)).

Definition handler_error_line (e : exn) : Event :=
  ConsoleError [ LogVal (VStr "Handler error:"); LogErr e ].

Definition payment_error_line (e : exn) : Event :=
  ConsoleError [ LogVal (VStr "Payment initiation error:"); LogErr e ].

(** What reading [.value] of a missing first debit party throws. *)
Definition no_payer : exn :=
  TypeError "Cannot read properties of undefined (reading 'value')".

(** ** Sample inputs *)

Definition sample_token : value :=
  VObj [ ("access_token", VStr "abc123");
         ("scope", VStr "EXT_INT_MVOLA_SCOPE");
         ("token_type", VStr "Bearer");
         ("expires_in", VNum (Num "3600")) ].

Definition sample_env (k : string) : option string :=
  if (k =? "MVOLA_CONSUMER_KEY")%string then Some "key"
  else if (k =? "MVOLA_CONSUMER_SECRET")%string then Some "secret"
  else None.

(** A runtime whose provider grants a token and accepts every payment. *)
Definition devapi : Runtime := {|
  env_get := sample_env;
  global_fetch := fun url _ =>
    if (url =? "https://devapi.mvola.mg/token")%string then
      inr {| res_status := 200;
             res_text := inr "";
             res_json := inr sample_token |}
    else
      inr {| res_status := 200;
             res_text := inr "";
             res_json := inr (VObj [ ("transactionReference", VStr "TX1") ]) |};
  randomUUID := "123e4567-e89b-42d3-a456-426614174000";
  now_ISOString := "2024-01-01T00:00:00.000Z"
|}.

(** A network on which every call fails. *)
Definition offline : Runtime := {|
  env_get := sample_env;
  global_fetch := fun _ _ => inl (TypeError "error sending request");
  randomUUID := "123e4567-e89b-42d3-a456-426614174000";
  now_ISOString := "2024-01-01T00:00:00.000Z"
|}.

(** A provider that refuses the credentials, and one whose token answer
    is not JSON. *)
Definition refusing : Runtime := {|
  env_get := fun _ => None;
  global_fetch := fun _ _ =>
    inr {| res_status := 401;
           res_text := inr "invalid_client";
           res_json := inl (Exn "SyntaxError" "Unexpected token i in JSON at position 0") |};
  randomUUID := "123e4567-e89b-42d3-a456-426614174000";
  now_ISOString := "2024-01-01T00:00:00.000Z"
|}.

Definition garbled : Runtime := {|
  env_get := sample_env;
  global_fetch := fun _ _ =>
    inr {| res_status := 200;
           res_text := inr "<html>";
           res_json := inl (Exn "SyntaxError" "Unexpected token < in JSON at position 0") |};
  randomUUID := "123e4567-e89b-42d3-a456-426614174000";
  now_ISOString := "2024-01-01T00:00:00.000Z"
|}.

Definition request_to (method path : string) (parsed : exn + value) : Request :=
  {| req_method := method;
     req_url := {| origin := "https://mvola.example";
                   pathname := path;
                   searchParams := [];
                   hash := "" |};
     req_json := parsed |}.

Definition no_body : exn + value :=
  inl (Exn "SyntaxError" "Unexpected end of JSON input").

Definition party (msisdn : string) : value :=
  VArr [ VObj [ ("key", VStr "msisdn"); ("value", VStr msisdn) ] ].

Definition sample_payment (debitParty : value) : value :=
  VObj [ ("amount", VStr "1000");
         ("currency", VStr "Ar");
         ("descriptionText", VStr "test");
         ("debitParty", debitParty);
         ("creditParty", party "0350000000");
         ("metadata", VArr []);
         ("requestDate", VStr "2024-01-01T00:00:00.000Z");
         ("originalTransactionReference", VStr "REF-1") ].

(** ** Further readings of a run *)

(** Every outbound call of a trace, with its address, in order. *)
Fixpoint fetches (t : list Event) : list (string * RequestInit) :=
  match t with
  | [] => []
  | Fetch url init :: rest => (url, init) :: fetches rest
  | _ :: rest => fetches rest
  end.

(** The console lines written with [console.error]. *)
Fixpoint error_lines (t : list Event) : list (list LogArg) :=
  match t with
  | [] => []
  | ConsoleError args :: rest => args :: error_lines rest
  | _ :: rest => error_lines rest
  end.

(** The [credentials] of [authenticateMvola]. *)
Definition basic_credentials (rt : Runtime) : exn + string :=
  btoa (CONSUMER_KEY (MVOLA_CONFIG rt) ++ ":"
          ++ CONSUMER_SECRET (MVOLA_CONFIG rt)).

(** [v.k] for a value that is neither [null] nor [undefined]. *)
Definition read (v : value) (k : string) : value :=
  match get v (KName k) with
  | inr x => x
  | inl _ => VUndefined
  end.

(** The two error responses every route shares. *)
Definition unauthorized : Response :=
  {| status := 401;
     headers := cors_with_type "application/json";
     body := Some (JSON_stringify
                     (VObj [ ("error", VStr "Authentication failed") ])) |}.

Definition internal_server_error (message : string) : Response :=
  {| status := 500;
     headers := cors_with_type "application/json";
     body := Some (JSON_stringify
                     (VObj [ ("error", VStr "Internal server error");
                             ("message", VStr message) ])) |}.

(** The paths the [switch] names. *)
Definition routed (path : string) : bool :=
  ((path =? "/") || (path =? "/test") || (path =? "/auth")
   || (path =? "/payment") || (path =? "/webhook"))%string.


(** The three assignments of [case "/payment":], on any parsed body. *)
Definition overwritten (paymentRequest : value) : exn + value :=
  let? p := set paymentRequest "requestDate" (VStr "") in
  let? p := set p "requestingOrganisationTransactionReference" (VStr "") in
  set p "originalTransactionReference" (VStr "").

Definition auth_error_line (e : exn) : Event :=
  ConsoleError [ LogVal (VStr "Auth error:"); LogErr e ].

(** The answer of [case "/auth":] to a token response [a]. *)
Definition token_response (a : value) : Response :=
  {| status := 200;
     headers := cors_with_type "application/json";
     body := Some (JSON_stringify
                     (VObj [ ("success", VBool true);
                             ("token", read a "access_token");
                             ("expires_in", read a "expires_in") ])) |}.

(** What reading [debitParty[0]] of a missing debit party throws. *)
Definition no_debit_party : exn :=
  TypeError "Cannot read properties of undefined (reading '0')".

(** ** Further sample inputs *)

Definition fixed_uuid : string := "123e4567-e89b-42d3-a456-426614174000".
Definition fixed_now : string := "2024-01-01T00:00:00.000Z".

Definition answering (token pay : exn + FetchResponse) (url : string)
  : exn + FetchResponse :=
  if (url =? "https://devapi.mvola.mg/token")%string then token else pay.

Definition json_answer (s : Z) (v : value) : exn + FetchResponse :=
  inr {| res_status := s; res_text := inr ""; res_json := inr v |}.

(** The token endpoint answers 200 with the JSON text [null]. *)
Definition null_token : Runtime := {|
  env_get := sample_env;
  global_fetch := fun url _ =>
    answering (json_answer 200 VNull) (json_answer 200 (VObj [])) url;
  randomUUID := fixed_uuid;
  now_ISOString := fixed_now
|}.



(** No variable is set in the environment. *)
Definition unconfigured : Runtime := {|
  env_get := fun _ => None;
  global_fetch := fun url _ =>
    answering (json_answer 200 sample_token) (json_answer 200 (VObj [])) url;
  randomUUID := fixed_uuid;
  now_ISOString := fixed_now
|}.

(** The consumer key holds a euro sign (three bytes of UTF-8), a character
    [btoa] refuses. *)
Definition euro : string :=
  String "226" (String "130" (String "172" EmptyString)).

Definition euro_key : Runtime := {|
  env_get := fun k =>
    if (k =? "MVOLA_CONSUMER_KEY")%string then Some euro else Some "secret";
  global_fetch := fun url _ =>
    answering (json_answer 200 sample_token) (json_answer 200 (VObj [])) url;
  randomUUID := fixed_uuid;
  now_ISOString := fixed_now
|}.

(** Numbers that are no small integers: the token expires in
    9223372036854775808 seconds, a double that prints with three zeros at
    its end, and the provider reports a fee of 1e21 and a rate of 0.5. *)
Definition large_numbers : Runtime := {|
  env_get := sample_env;
  global_fetch := fun url _ =>
    answering
      (json_answer 200
         (VObj [ ("access_token", VStr "abc123");
                 ("expires_in", VNum (Num "9223372036854776000")) ]))
      (json_answer 200
         (VObj [ ("fee", VNum (Num "1e+21")); ("rate", VNum (Num "0.5")) ]))
      url;
  randomUUID := fixed_uuid;
  now_ISOString := fixed_now
|}.

(** A payment whose first debit party has a key and no value. *)
Definition payment_without_value : value :=
  VObj [ ("amount", VStr "1000");
         ("currency", VStr "Ar");
         ("descriptionText", VStr "test");
         ("debitParty", VArr [ VObj [ ("key", VStr "msisdn") ] ]);
         ("creditParty", party "0350000000");
         ("metadata", VArr []) ].

(** ** Laws of the effect operations *)

Section Laws.

Context {A B : Type}.

Lemma outcome_bind (m : M A) (k : A -> M B) (a : A) :
  outcome m = inr a -> outcome (bind m k) = outcome (k a).
Proof. intros H. unfold bind. rewrite H. reflexivity. Qed.

Lemma trace_bind (m : M A) (k : A -> M B) (a : A) :
  outcome m = inr a -> trace (bind m k) = (trace m ++ trace (k a))%list.
Proof. intros H. unfold bind. rewrite H. reflexivity. Qed.

Lemma bind_throws (m : M A) (k : A -> M B) (e : exn) :
  outcome m = inl e -> bind m k = (trace m, inl e).
Proof. intros H. unfold bind. rewrite H. reflexivity. Qed.

Lemma bind_lift (a : A) (k : A -> M B) : bind (lift (inr a)) k = k a.
Proof. unfold bind, lift. cbn. destruct (k a). reflexivity. Qed.

Lemma bind_lift_throws (e : exn) (k : A -> M B) :
  bind (lift (inl e)) k = ([], inl e).
Proof. reflexivity. Qed.

Lemma try_catch_returns (m : M A) (h : exn -> M A) (a : A) :
  outcome m = inr a -> try_catch m h = (trace m, inr a).
Proof. intros H. unfold try_catch. rewrite H. reflexivity. Qed.

Lemma try_catch_caught (m : M A) (h : exn -> M A) (e : exn) :
  outcome m = inl e ->
  try_catch m h = ((trace m ++ trace (h e))%list, outcome (h e)).
Proof. intros H. unfold try_catch. rewrite H. reflexivity. Qed.

End Laws.

Lemma calls_to_app (u : string) (s t : list Event) :
  calls_to u (s ++ t) = (calls_to u s ++ calls_to u t)%list.
Proof.
  induction s as [|ev s IH]; [reflexivity|].
  destruct ev as [args|args|u' init]; cbn; try exact IH.
  destruct (u' =? u)%string; cbn; now rewrite IH.
Qed.

Lemma ensures_bind {A B} (P : B -> Prop) (m : M A) (k : A -> M B) :
  (forall a, ensures P (k a)) -> ensures P (bind m k).
Proof.
  intros H. unfold ensures, bind. destruct (outcome m) as [e|a]; cbn; [exact I|].
  apply H.
Qed.

Lemma ensures_try_catch {A} (P : A -> Prop) (m : M A) (h : exn -> M A) :
  ensures P m -> (forall e, ensures P (h e)) -> ensures P (try_catch m h).
Proof.
  intros Hm Hh. unfold ensures, try_catch in *.
  destruct (outcome m) as [e|a]; cbn; [apply Hh | exact Hm].
Qed.

Lemma ensures_new_Response (P : Response -> Prop) b st hs :
  (forall s, P {| status := s; headers := hs; body := b |}) ->
  ensures P (lift (new_Response b st hs)).
Proof.
  intros H. unfold ensures, lift, new_Response, outcome. cbn.
  destruct (_ && negb _); [exact I|].
  destruct b; [destruct (null_body_status _)|]; cbn; auto.
Qed.

(** ** The helpers always return *)

Arguments JSON_stringify : simpl never.
Arguments JSON_stringify_pretty : simpl never.
Arguments btoa : simpl never.
Arguments template : simpl never.

Lemma token_is_not_merchant_pay (rt : Runtime) :
  (token_url rt =? merchant_pay_url rt)%string = false.
Proof. reflexivity. Qed.

Lemma authenticateMvola_returns (rt : Runtime) :
  exists v, outcome (authenticateMvola rt) = inr v.
Proof.
  unfold authenticateMvola, try_catch, bind, await_fetch, lift, outcome, trace.
  cbn.
  destruct (btoa _) as [e|c]; cbn; [eauto|].
  destruct (global_fetch rt _ _) as [e|res]; cbn; [eauto|].
  destruct (res_ok res); cbn.
  - destruct (res_json res); cbn; eauto.
  - destruct (res_text res); cbn; eauto.
Qed.

Lemma authenticateMvola_no_merchant_pay (rt : Runtime) :
  merchant_pay_calls rt (authenticateMvola rt) = [].
Proof.
  unfold merchant_pay_calls, authenticateMvola, try_catch, bind, await_fetch,
    lift, outcome, trace.
  cbn.
  destruct (btoa _) as [e|c]; cbn; [reflexivity|].
  destruct (global_fetch rt _ _) as [e|res]; cbn; [reflexivity|].
  destruct (res_ok res); cbn.
  - destruct (res_json res); reflexivity.
  - destruct (res_text res); reflexivity.
Qed.

Lemma authenticateMvola_failure (rt : Runtime) (ans : exn + FetchResponse) :
  token_answer rt = Some ans -> token_failure ans ->
  outcome (authenticateMvola rt) = inr VNull.
Proof.
  unfold token_answer, authenticateMvola, try_catch, bind, await_fetch,
    lift, outcome, trace.
  cbn.
  destruct (btoa _) as [e|c]; cbn; [discriminate|].
  intros [= <-] Hfail.
  inversion Hfail as [e He | res Hok He | res e Hjson He]; cbn.
  - reflexivity.
  - rewrite Hok. cbn. destruct (res_text res); reflexivity.
  - destruct (res_ok res); cbn.
    + rewrite Hjson. reflexivity.
    + destruct (res_text res); reflexivity.
Qed.

Arguments authenticateMvola : simpl never.
Arguments initiateMvolaPayment : simpl never.

(** C2.  When the token call ends in a transport error, a non-success
    status or a body that is not JSON, [authenticateMvola] returns [null];
    POST /auth and POST /payment then answer 401 with the body
    [{error: "Authentication failed"}], and no call to the merchant-pay
    endpoint is made. *)
Theorem authentication_failure_gives_401
  (rt : Runtime) (ans : exn + FetchResponse) (request : Request) :
  token_answer rt = Some ans ->
  token_failure ans ->
  req_method request = "POST" ->
  pathname (req_url request) = "/auth"
    \/ pathname (req_url request) = "/payment" ->
  outcome (authenticateMvola rt) = inr VNull
  /\ outcome (fetch rt request)
     = inr {| status := 401;
              headers := cors_with_type "application/json";
              body := Some (JSON_stringify
                              (VObj [ ("error", VStr "Authentication failed") ])) |}
  /\ merchant_pay_calls rt (fetch rt request) = [].
Proof.
  intros Hans Hfail Hm Hp.
  pose proof (authenticateMvola_failure rt ans Hans Hfail) as Hnull.
  pose proof (authenticateMvola_no_merchant_pay rt) as Hcalls.
  split; [exact Hnull|].
  unfold merchant_pay_calls in *.
  unfold fetch, dispatch, case_auth, case_payment. rewrite Hm.
  destruct Hp as [-> | ->]; cbn;
    unfold try_catch, bind; rewrite Hnull; cbn;
    rewrite app_nil_r; auto.
Qed.


(** ** Stepping through a computation *)

Lemma bind_console_log {B} (args : list LogArg) (k : unit -> M B) :
  bind (console_log args) k = (ConsoleLog args :: trace (k tt), outcome (k tt)).
Proof. reflexivity. Qed.

Lemma bind_console_error {B} (args : list LogArg) (k : unit -> M B) :
  bind (console_error args) k
  = (ConsoleError args :: trace (k tt), outcome (k tt)).
Proof. reflexivity. Qed.

Lemma bind_await_fetch {B} (rt : Runtime) u init (k : FetchResponse -> M B) res :
  global_fetch rt u init = inr res ->
  bind (await_fetch rt u init) k
  = (Fetch u init :: trace (k res), outcome (k res)).
Proof. intros H. unfold bind, await_fetch, outcome, trace. cbn. now rewrite H. Qed.

Lemma bind_await_fetch_throws {B} (rt : Runtime) u init
  (k : FetchResponse -> M B) e :
  global_fetch rt u init = inl e ->
  bind (await_fetch rt u init) k = ([Fetch u init], inl e).
Proof. intros H. unfold bind, await_fetch, outcome, trace. cbn. now rewrite H. Qed.

Lemma try_catch_pair_throws {A} (t : list Event) (e : exn) (h : exn -> M A) :
  try_catch (t, inl e) h = ((t ++ trace (h e))%list, outcome (h e)).
Proof. reflexivity. Qed.

Lemma try_catch_pair_returns {A} (t : list Event) (a : A) (h : exn -> M A) :
  try_catch (t, inr a) h = (t, inr a).
Proof. reflexivity. Qed.

Lemma trace_pair {A} (t : list Event) (o : exn + A) : trace (t, o) = t.
Proof. reflexivity. Qed.

Lemma outcome_pair {A} (t : list Event) (o : exn + A) : outcome (t, o) = o.
Proof. reflexivity. Qed.

Lemma trace_ret {A} (a : A) : trace (ret a) = [].
Proof. reflexivity. Qed.

Lemma outcome_ret {A} (a : A) : outcome (ret a) = inr a.
Proof. reflexivity. Qed.

Lemma trace_lift {A} (r : exn + A) : trace (lift r) = [].
Proof. reflexivity. Qed.

Lemma outcome_lift {A} (r : exn + A) : outcome (lift r) = r.
Proof. reflexivity. Qed.

Ltac step :=
  repeat first
    [ rewrite bind_lift
    | rewrite bind_lift_throws
    | rewrite bind_console_log
    | rewrite bind_console_error
    | rewrite trace_pair
    | rewrite outcome_pair
    | rewrite trace_ret
    | rewrite outcome_ret
    | rewrite trace_lift
    | rewrite outcome_lift
    | rewrite try_catch_pair_throws
    | rewrite try_catch_pair_returns ].

Ltac fetched H :=
  first [ rewrite (bind_await_fetch _ _ _ _ _ H)
        | rewrite (bind_await_fetch_throws _ _ _ _ _ H) ];
  step.

(** ** [initiateMvolaPayment], case by case *)

(** The header object cannot be built: nothing is sent. *)
Lemma initiateMvolaPayment_no_headers rt paymentData accessToken e :
  payment_headers rt paymentData accessToken = inl e ->
  initiateMvolaPayment rt paymentData accessToken
  = ([payment_error_line e], inr (synthesized e)).
Proof.
  intros H. unfold initiateMvolaPayment. rewrite H. step. reflexivity.
Qed.

(** The header object is built: one call is made, and the result follows
    from its answer. *)
Lemma initiateMvolaPayment_sends rt paymentData accessToken hs :
  payment_headers rt paymentData accessToken = inr hs ->
  let m := initiateMvolaPayment rt paymentData accessToken in
  let init := merchant_pay_init hs paymentData in
  merchant_pay_calls rt m = [init]
  /\ outcome m
     = inr match global_fetch rt (merchant_pay_url rt) init with
           | inl e => synthesized e
           | inr res =>
               match res_json res with
               | inl e => synthesized e
               | inr data => passed_through res data
               end
           end.
Proof.
  intros H m init. subst m init. unfold merchant_pay_calls, initiateMvolaPayment.
  rewrite H. step.
  destruct (global_fetch rt _ _) as [e|res] eqn:Hfetch; fetched Hfetch.
  - split; reflexivity.
  - destruct (res_json res) as [e|data]; step; split; reflexivity.
Qed.

Lemma initiateMvolaPayment_returns rt paymentData accessToken :
  exists r, outcome (initiateMvolaPayment rt paymentData accessToken) = inr r.
Proof.
  destruct (payment_headers rt paymentData accessToken) as [e|hs] eqn:H.
  - rewrite (initiateMvolaPayment_no_headers _ _ _ _ H).
    eexists. reflexivity.
  - destruct (initiateMvolaPayment_sends _ _ _ _ H) as [_ ->].
    eexists. reflexivity.
Qed.

(** C3, as the code has it.  [initiateMvolaPayment] always returns a
    [{status, data}], in one of three ways and no other.  When the header
    object cannot be built (the access token, or [debitParty[0].value],
    cannot be read or converted to text), no call is made and the result is
    [{status: 500, data: {error: message}}] for that exception.  Otherwise
    exactly one call is made, a POST to the merchant-pay endpoint with
    those headers and the serialised payment: when the provider answers
    with a JSON body the result is the provider's status, unchanged, and
    that parsed body; when the call fails at transport level, or the answer
    is not JSON, the result is [{status: 500, data: {error: message}}] for
    that exception. *)
Theorem initiateMvolaPayment_result
  (rt : Runtime) (paymentData accessToken : value) :
  let m := initiateMvolaPayment rt paymentData accessToken in
  let url :=
    "https://devapi.mvola.mg/mvola/mm/transactions/type/merchantpay/1.0.0/" in
  match payment_headers rt paymentData accessToken with
  | inl e =>
      fetches (trace m) = []
      /\ outcome m
         = inr {| pr_status := 500;
                  pr_data := VObj [ ("error", VStr (exn_message e)) ] |}
  | inr hs =>
      let init := {| init_method := "POST";
                     init_headers := hs;
                     init_body := BodyText (JSON_stringify paymentData) |} in
      fetches (trace m) = [ (url, init) ]
      /\ outcome m
         = inr match global_fetch rt url init with
               | inl e =>
                   {| pr_status := 500;
                      pr_data := VObj [ ("error", VStr (exn_message e)) ] |}
               | inr res =>
                   match res_json res with
                   | inl e =>
                       {| pr_status := 500;
                          pr_data := VObj [ ("error", VStr (exn_message e)) ] |}
                   | inr data =>
                       {| pr_status := res_status res; pr_data := data |}
                   end
               end
  end.
Proof.
  cbv zeta. unfold initiateMvolaPayment.
  destruct (payment_headers rt paymentData accessToken) as [e|hs]; step.
  { split; reflexivity. }
  change (merchant_pay_url rt)
    with "https://devapi.mvola.mg/mvola/mm/transactions/type/merchantpay/1.0.0/".
  change (merchant_pay_init hs paymentData)
    with {| init_method := "POST";
            init_headers := hs;
            init_body := BodyText (JSON_stringify paymentData) |}.
  match goal with
  | |- context [await_fetch rt ?u ?i] =>
      destruct (global_fetch rt u i) as [e|res] eqn:Hfetch
  end; fetched Hfetch.
  { split; reflexivity. }
  destruct (res_json res) as [e|data]; step; split; reflexivity.
Qed.

(** C3 as stated fails: the synthesized result also arises without any
    transport-level exception or malformed answer.  With an empty debit
    party nothing is sent, though the provider would answer every call
    with status 200 and a JSON body, and the result is the synthesized
    500, not that answer passed through. *)
Lemma synthesized_without_provider_failure :
  let m :=
    initiateMvolaPayment devapi (sample_payment (VArr [])) (VStr "abc123") in
  let answer :=
    {| res_status := 200;
       res_text := inr "";
       res_json := inr (VObj [ ("transactionReference", VStr "TX1") ]) |} in
  (forall init, global_fetch devapi (merchant_pay_url devapi) init = inr answer)
  /\ fetches (trace m) = []
  /\ outcome m
     = inr {| pr_status := 500;
              pr_data :=
                VObj [ ("error",
                        VStr "Cannot read properties of undefined (reading 'value')") ] |}
  /\ outcome m
     <> inr {| pr_status := 200;
               pr_data := VObj [ ("transactionReference", VStr "TX1") ] |}.
Proof.
  cbv zeta. split; [reflexivity|]. split; [reflexivity|].
  split; [reflexivity|]. vm_compute. discriminate.
Qed.

(** On the sample runtimes: the provider's answer passed through, and a
    transport error turned into the synthesized result. *)
Example initiateMvolaPayment_passes_through :
  outcome (initiateMvolaPayment devapi
             (sample_payment (party "0340000000")) (VStr "abc123"))
  = inr {| pr_status := 200;
           pr_data := VObj [ ("transactionReference", VStr "TX1") ] |}.
Proof. vm_compute. reflexivity. Qed.

Example initiateMvolaPayment_offline :
  outcome (initiateMvolaPayment offline
             (sample_payment (party "0340000000")) (VStr "abc123"))
  = inr {| pr_status := 500;
           pr_data := VObj [ ("error", VStr "error sending request") ] |}.
Proof. vm_compute. reflexivity. Qed.

(** ** The handler always answers, with the cross-origin headers *)

Lemma has_cors_plain s b :
  has_cors {| status := s; headers := corsHeaders; body := b |}.
Proof. unfold has_cors; cbn; auto 6. Qed.

Lemma has_cors_typed s t b :
  has_cors {| status := s; headers := cors_with_type t; body := b |}.
Proof. unfold has_cors; cbn; auto 6. Qed.

Create HintDb cors.
#[local] Hint Resolve has_cors_plain has_cors_typed : cors.

Ltac cors_leaf :=
  first [ apply ensures_new_Response; intros; auto with cors
        | unfold method_not_allowed, authentication_failed;
          apply ensures_new_Response; intros; auto with cors ].

Lemma dispatch_cors (rt : Runtime) (request : Request) (p : string) :
  ensures has_cors (dispatch rt request p).
Proof.
  unfold dispatch, case_auth, case_payment, case_webhook.
  repeat match goal with
         | |- ensures _ (if ?c then _ else _) => destruct c
         | |- ensures _ (bind _ _) => apply ensures_bind; intros
         | |- _ => cors_leaf
         end.
Qed.

Lemma internal_error_response (e : exn) :
  outcome (internal_error e)
  = inr {| status := 500;
           headers := cors_with_type "application/json";
           body := Some (JSON_stringify
                           (VObj [ ("error", VStr "Internal server error");
                                   ("message", VStr (exn_message e)) ])) |}.
Proof. reflexivity. Qed.

(** C7.  Whatever the runtime and the request, the handler returns a
    response, and that response carries [Access-Control-Allow-Origin: *],
    [Access-Control-Allow-Methods: GET, POST, OPTIONS] and
    [Access-Control-Allow-Headers: Content-Type, Authorization]. *)
Theorem every_response_has_cors (rt : Runtime) (request : Request) :
  exists r,
    outcome (fetch rt request) = inr r
    /\ In ("Access-Control-Allow-Origin", "*") (headers r)
    /\ In ("Access-Control-Allow-Methods", "GET, POST, OPTIONS") (headers r)
    /\ In ("Access-Control-Allow-Headers", "Content-Type, Authorization")
         (headers r).
Proof.
  unfold fetch. cbv zeta.
  destruct (req_method request =? "OPTIONS")%string.
  - eexists. split; [reflexivity|]. apply (has_cors_plain 200 None).
  - pose proof (dispatch_cors rt request (pathname (req_url request))) as H.
    unfold ensures in H.
    destruct (outcome (dispatch rt request (pathname (req_url request))))
      as [e|r] eqn:Hd.
    + rewrite (try_catch_caught _ _ e Hd), outcome_pair, internal_error_response.
      eexists. split; [reflexivity|]. apply has_cors_typed.
    + rewrite (try_catch_returns _ _ r Hd), outcome_pair.
      exists r. split; [reflexivity | exact H].
Qed.

(** ** Routes without outbound calls *)

Lemma eqb_false_of_neq (a b : string) : a <> b -> (a =? b)%string = false.
Proof. intros H. now apply String.eqb_neq. Qed.

(** C5, as the code has it.  A POST /webhook request whose body parses as
    JSON is answered 200 with the body [{received: true}], whatever the
    parsed value; the handler does nothing else than write it to the
    console. *)
Theorem webhook_acknowledges_parsed_body
  (rt : Runtime) (request : Request) (webhookData : value) :
  req_method request = "POST" ->
  pathname (req_url request) = "/webhook" ->
  req_json request = inr webhookData ->
  fetch rt request
  = ([ ConsoleLog [ LogVal (VStr "Webhook received:"); LogVal webhookData ] ],
     inr {| status := 200;
            headers := cors_with_type "application/json";
            body := Some (JSON_stringify (VObj [ ("received", VBool true) ])) |}).
Proof.
  intros Hm Hp Hj. unfold fetch, dispatch, case_webhook.
  rewrite Hm, Hp, Hj. reflexivity.
Qed.

Lemma webhook_acknowledges_parsed_body_witness :
  fetch devapi (request_to "POST" "/webhook" (inr (VObj [])))
  = ([ ConsoleLog [ LogVal (VStr "Webhook received:"); LogVal (VObj []) ] ],
     inr {| status := 200;
            headers := cors_with_type "application/json";
            body := Some (JSON_stringify (VObj [ ("received", VBool true) ])) |}).
Proof.
  apply (webhook_acknowledges_parsed_body devapi
           (request_to "POST" "/webhook" (inr (VObj []))) (VObj []));
    reflexivity.
Defined.

(** C5 as stated fails: a POST /webhook request whose body is not JSON
    (here an empty body) is answered 500 by the top-level guard. *)
Lemma webhook_without_json_is_500 :
  let request := request_to "POST" "/webhook" no_body in
  req_method request = "POST"
  /\ pathname (req_url request) = "/webhook"
  /\ outcome (fetch devapi request)
     = inr {| status := 500;
              headers := cors_with_type "application/json";
              body := Some (JSON_stringify
                              (VObj [ ("error", VStr "Internal server error");
                                      ("message",
                                       VStr "Unexpected end of JSON input") ])) |}
  /\ outcome (fetch devapi request)
     <> inr {| status := 200;
               headers := cors_with_type "application/json";
               body := Some (JSON_stringify (VObj [ ("received", VBool true) ])) |}.
Proof.
  cbv zeta. repeat split; try reflexivity. vm_compute. discriminate.
Qed.

(** C6, as the code has it.  On /auth, /payment and /webhook a request
    whose method is neither POST nor OPTIONS is answered 405, and nothing
    else happens. *)
Theorem other_methods_are_405 (rt : Runtime) (request : Request) :
  req_method request <> "POST" ->
  req_method request <> "OPTIONS" ->
  pathname (req_url request) = "/auth"
    \/ pathname (req_url request) = "/payment"
    \/ pathname (req_url request) = "/webhook" ->
  fetch rt request
  = ([], inr {| status := 405;
                headers := corsHeaders;
                body := Some "Method not allowed" |}).
Proof.
  intros Hpost Hopt Hp. unfold fetch, dispatch, case_auth, case_payment, case_webhook.
  rewrite (eqb_false_of_neq _ _ Hpost), (eqb_false_of_neq _ _ Hopt).
  destruct Hp as [-> | [-> | ->]]; reflexivity.
Qed.

Lemma other_methods_are_405_witness :
  fetch devapi (request_to "GET" "/payment" no_body)
  = ([], inr {| status := 405;
                headers := corsHeaders;
                body := Some "Method not allowed" |}).
Proof.
  apply (other_methods_are_405 devapi (request_to "GET" "/payment" no_body)).
  - discriminate.
  - discriminate.
  - right; left; reflexivity.
Defined.

(** C6 as stated fails: OPTIONS is not POST, and OPTIONS /auth is answered
    by the preflight branch with status 200. *)
Lemma options_auth_is_not_405 :
  let request := request_to "OPTIONS" "/auth" no_body in
  req_method request <> "POST"
  /\ pathname (req_url request) = "/auth"
  /\ fetch devapi request
     = ([], inr {| status := 200; headers := corsHeaders; body := None |})
  /\ (forall r, outcome (fetch devapi request) = inr r -> status r <> 405).
Proof.
  cbv zeta. repeat split; try reflexivity; try discriminate.
  intros r [= <-]. discriminate.
Qed.

(** C8.  On /test every request other than OPTIONS is answered 200, and
    [config.hasCredentials] in the body is [true] exactly when the consumer
    key and the consumer secret are both non-empty. *)
Theorem test_reports_credentials (rt : Runtime) (request : Request) :
  req_method request <> "OPTIONS" ->
  pathname (req_url request) = "/test" ->
  exists r hasCredentials,
    fetch rt request = ([], inr r)
    /\ status r = 200
    /\ body r
       = Some (JSON_stringify
                 (VObj [ ("message", VStr (check_mark ++ " API is working!"));
                         ("timestamp", VStr (now_ISOString rt));
                         ("config",
                          VObj [ ("baseUrl", VStr "https://devapi.mvola.mg");
                                 ("hasCredentials", VBool hasCredentials) ]) ]))
    /\ (hasCredentials = true <->
        CONSUMER_KEY (MVOLA_CONFIG rt) <> ""
        /\ CONSUMER_SECRET (MVOLA_CONFIG rt) <> "").
Proof.
  intros Hopt Hp. unfold fetch, dispatch.
  rewrite (eqb_false_of_neq _ _ Hopt), Hp.
  eexists. eexists. split; [reflexivity|]. cbn [status body].
  split; [reflexivity|]. split; [reflexivity|].
  unfold js_and, truthy.
  destruct (String.eqb_spec (CONSUMER_KEY (MVOLA_CONFIG rt)) "") as [Hk|Hk];
    cbn [negb].
  - rewrite Hk. cbn. split; [discriminate | intros [H _]; now elim H].
  - destruct (String.eqb_spec (CONSUMER_SECRET (MVOLA_CONFIG rt)) "")
      as [Hs|Hs]; cbn [negb].
    + split; [discriminate | intros [_ H]; contradiction].
    + split; [intros _; split; assumption | reflexivity].
Qed.

Lemma test_reports_credentials_witness :
  exists r hasCredentials,
    fetch devapi (request_to "GET" "/test" no_body) = ([], inr r)
    /\ status r = 200
    /\ body r
       = Some (JSON_stringify
                 (VObj [ ("message", VStr (check_mark ++ " API is working!"));
                         ("timestamp", VStr (now_ISOString devapi));
                         ("config",
                          VObj [ ("baseUrl", VStr "https://devapi.mvola.mg");
                                 ("hasCredentials", VBool hasCredentials) ]) ]))
    /\ (hasCredentials = true <->
        CONSUMER_KEY (MVOLA_CONFIG devapi) <> ""
        /\ CONSUMER_SECRET (MVOLA_CONFIG devapi) <> "").
Proof.
  apply (test_reports_credentials devapi (request_to "GET" "/test" no_body)).
  - discriminate.
  - reflexivity.
Defined.

(** C9.  The banner lists GET /status, but no such route exists: a request
    to /status, whatever its method other than OPTIONS, falls to the
    default case and is answered 404 with the body Not Found. *)
Theorem status_route_is_not_found (rt : Runtime) (request : Request) :
  req_method request <> "OPTIONS" ->
  pathname (req_url request) = "/status" ->
  String.index 0 "- GET /status" banner <> None
  /\ fetch rt request
     = ([], inr {| status := 404;
                   headers := corsHeaders;
                   body := Some "Not Found" |}).
Proof.
  intros Hopt Hp. split; [vm_compute; discriminate|].
  unfold fetch, dispatch. rewrite (eqb_false_of_neq _ _ Hopt), Hp.
  reflexivity.
Qed.

Lemma status_route_is_not_found_witness :
  String.index 0 "- GET /status" banner <> None
  /\ fetch devapi (request_to "GET" "/status" no_body)
     = ([], inr {| status := 404;
                   headers := corsHeaders;
                   body := Some "Not Found" |}).
Proof.
  apply (status_route_is_not_found devapi
           (request_to "GET" "/status" no_body)).
  - discriminate.
  - reflexivity.
Defined.

(** C10.  The query string plays no part: a request and the same request
    with any other query parameters are handled alike, with the same
    effects and the same response. *)
Theorem query_is_ignored
  (rt : Runtime) (request : Request) (q : list (string * string)) :
  pathname (req_url (with_query q request)) = pathname (req_url request)
  /\ fetch rt (with_query q request) = fetch rt request.
Proof. split; reflexivity. Qed.

(** ** Property lists under assignment *)

Lemma lookup_not_In k props v : lookup k props = None -> ~ In (k, v) props.
Proof.
  induction props as [|[k' v'] props IH]; cbn; [tauto|].
  destruct (String.eqb_spec k' k) as [->|Hne]; [discriminate|].
  intros H [[= -> _]|Hin]; [now elim Hne | now apply IH].
Qed.

Lemma lookup_replace k x props :
  lookup k (replace k x props)
  = match lookup k props with Some _ => Some x | None => None end.
Proof.
  induction props as [|[k' v'] props IH]; cbn; [reflexivity|].
  destruct (k' =? k)%string; [reflexivity | exact IH].
Qed.

Lemma lookup_replace_other k k' x props :
  k <> k' -> lookup k (replace k' x props) = lookup k props.
Proof.
  intros Hne. induction props as [|[k0 v0] props IH]; cbn; [reflexivity|].
  destruct (String.eqb_spec k0 k) as [->|_]; [|exact IH].
  now rewrite (eqb_false_of_neq _ _ Hne).
Qed.

Lemma lookup_app k props more :
  lookup k (props ++ more)
  = match lookup k props with Some v => Some v | None => lookup k more end.
Proof.
  induction props as [|[k' v'] props IH]; cbn; [reflexivity|].
  destruct (k' =? k)%string; [reflexivity | exact IH].
Qed.

Lemma In_replace k x props v : In (k, v) (replace k x props) -> v = x.
Proof.
  induction props as [|[k' v'] props IH]; cbn; [tauto|].
  intros [H|H]; [|now apply IH].
  injection H as -> <-. now rewrite String.eqb_refl.
Qed.

Lemma In_replace_other k k' x props v :
  k <> k' -> In (k, v) (replace k' x props) -> In (k, v) props.
Proof.
  intros Hne. induction props as [|[k0 v0] props IH]; cbn; [tauto|].
  intros [H|H]; [|right; now apply IH].
  injection H as -> <-. rewrite (eqb_false_of_neq _ _ Hne). now left.
Qed.

Lemma lookup_assign k x props : lookup k (assign k x props) = Some x.
Proof.
  unfold assign, has_own. destruct (lookup k props) as [v|] eqn:H.
  - now rewrite lookup_replace, H.
  - rewrite lookup_app, H. cbn. now rewrite String.eqb_refl.
Qed.

Lemma lookup_assign_other k k' x props :
  k <> k' -> lookup k (assign k' x props) = lookup k props.
Proof.
  intros Hne. unfold assign, has_own. destruct (lookup k' props) as [v|].
  - now apply lookup_replace_other.
  - rewrite lookup_app. destruct (lookup k props); [reflexivity|].
    cbn. rewrite eqb_false_of_neq; [reflexivity | congruence].
Qed.

Lemma blank_assign k props : blank k (assign k (VStr "") props).
Proof.
  split; [apply lookup_assign|].
  intros v. unfold assign, has_own. destruct (lookup k props) as [w|] eqn:H.
  - apply In_replace.
  - intros Hin. apply in_app_or in Hin as [Hin|[[= <-]|[]]]; [|reflexivity].
    now elim (lookup_not_In _ _ v H).
Qed.

Lemma blank_assign_other k k' x props :
  k <> k' -> blank k props -> blank k (assign k' x props).
Proof.
  intros Hne [Hl Hall]. split; [now rewrite lookup_assign_other|].
  intros v. unfold assign. destruct (has_own k' props).
  - intros Hin. apply Hall. now apply (In_replace_other k k' x).
  - intros Hin. apply in_app_or in Hin as [Hin|[[= E _]|[]]]; [now apply Hall|].
    now elim Hne.
Qed.

Lemma blanked_is_blank props :
  blank "requestDate" (blanked props)
  /\ blank "requestingOrganisationTransactionReference" (blanked props)
  /\ blank "originalTransactionReference" (blanked props).
Proof.
  unfold blanked. split; [|split].
  - apply blank_assign_other; [discriminate|].
    apply blank_assign_other; [discriminate|]. apply blank_assign.
  - apply blank_assign_other; [discriminate|]. apply blank_assign.
  - apply blank_assign.
Qed.

Lemma lookup_blanked k props :
  k <> "requestDate" ->
  k <> "requestingOrganisationTransactionReference" ->
  k <> "originalTransactionReference" ->
  lookup k (blanked props) = lookup k props.
Proof.
  intros H1 H2 H3. unfold blanked.
  now rewrite !lookup_assign_other.
Qed.

(** ** The payment route *)

Lemma bind_run {A B} (m : M A) (k : A -> M B) (a : A) :
  outcome m = inr a ->
  bind m k = ((trace m ++ trace (k a))%list, outcome (k a)).
Proof. intros H. unfold bind. now rewrite H. Qed.

Lemma fetch_not_options (rt : Runtime) (request : Request) :
  req_method request <> "OPTIONS" ->
  fetch rt request
  = try_catch (dispatch rt request (pathname (req_url request))) internal_error.
Proof. intros H. unfold fetch. now rewrite (eqb_false_of_neq _ _ H). Qed.

Lemma get_truthy (a : value) (k : key) :
  truthy a = true -> exists x, get a k = inr x.
Proof.
  destruct a; cbn; try discriminate; intros _; eauto.
  - destruct k; eauto. destruct (String.get i s); eauto.
  - destruct k; eauto.
  - destruct (lookup _ _); eauto.
Qed.

Lemma get_string_truthy (a : value) (k : string) (s : string) :
  get a (KName k) = inr (VStr s) -> truthy a = true.
Proof. destruct a; cbn; try discriminate; reflexivity. Qed.

(** Authentication failed: the route stops at the 401. *)
Lemma case_payment_unauthenticated rt request a :
  req_method request = "POST" ->
  outcome (authenticateMvola rt) = inr a ->
  truthy a = false ->
  case_payment rt request
  = (trace (authenticateMvola rt),
     inr {| status := 401;
            headers := cors_with_type "application/json";
            body := Some (JSON_stringify
                            (VObj [ ("error", VStr "Authentication failed") ])) |}).
Proof.
  intros Hm Ha Ht. unfold case_payment. rewrite Hm. cbn [String.eqb Ascii.eqb Bool.eqb negb].
  rewrite (bind_run _ _ a Ha), Ht. cbn [negb].
  unfold authentication_failed. step. rewrite app_nil_r. reflexivity.
Qed.

(** Authentication succeeded and the body is an object: the three fields
    are overwritten and the payment is initiated. *)
Lemma case_payment_object rt request a tok props :
  req_method request = "POST" ->
  outcome (authenticateMvola rt) = inr a ->
  truthy a = true ->
  get a (KName "access_token") = inr tok ->
  req_json request = inr (VObj props) ->
  let pay := initiateMvolaPayment rt (VObj (blanked props)) tok in
  exists r,
    outcome pay = inr r
    /\ case_payment rt request
       = ((trace (authenticateMvola rt) ++ trace pay)%list,
          new_Response (Some (JSON_stringify (PaymentResult_value r)))
            (Some (pr_status r)) (cors_with_type "application/json")).
Proof.
  intros Hm Ha Ht Htok Hj pay.
  destruct (initiateMvolaPayment_returns rt (VObj (blanked props)) tok)
    as [r Hr].
  exists r. split; [exact Hr|].
  unfold case_payment. rewrite Hm. cbn [String.eqb Ascii.eqb Bool.eqb negb].
  rewrite (bind_run _ _ a Ha), Ht. cbn [negb].
  rewrite Hj, Htok. repeat (step; cbn [set]). fold (blanked props).
  rewrite (bind_run _ _ r Hr). step. rewrite app_nil_r. reflexivity.
Qed.

Lemma calls_to_handler_error u t e :
  calls_to u (t ++ trace (internal_error e)) = calls_to u t.
Proof. rewrite calls_to_app. cbn. apply app_nil_r. Qed.

Lemma merchant_pay_calls_guarded rt (t : list Event) (r : exn + Response) :
  merchant_pay_calls rt (try_catch (t, r) internal_error)
  = calls_to (merchant_pay_url rt) t.
Proof.
  unfold merchant_pay_calls. destruct r as [e|resp]; step; [|reflexivity].
  apply calls_to_handler_error.
Qed.

Lemma fetch_payment_calls rt request a tok props :
  req_method request = "POST" ->
  pathname (req_url request) = "/payment" ->
  outcome (authenticateMvola rt) = inr a ->
  truthy a = true ->
  get a (KName "access_token") = inr tok ->
  req_json request = inr (VObj props) ->
  merchant_pay_calls rt (fetch rt request)
  = merchant_pay_calls rt (initiateMvolaPayment rt (VObj (blanked props)) tok).
Proof.
  intros Hm Hp Ha Ht Htok Hj.
  destruct (case_payment_object rt request a tok props Hm Ha Ht Htok Hj)
    as (r & _ & Hcase).
  rewrite fetch_not_options by (rewrite Hm; discriminate).
  rewrite Hp. change (dispatch rt request "/payment") with (case_payment rt request).
  rewrite Hcase, merchant_pay_calls_guarded, calls_to_app.
  pose proof (authenticateMvola_no_merchant_pay rt) as Hnone.
  unfold merchant_pay_calls in *. now rewrite Hnone.
Qed.

Lemma fetch_payment_unauthenticated_calls rt request a :
  req_method request = "POST" ->
  pathname (req_url request) = "/payment" ->
  outcome (authenticateMvola rt) = inr a ->
  truthy a = false ->
  merchant_pay_calls rt (fetch rt request) = [].
Proof.
  intros Hm Hp Ha Ht.
  rewrite fetch_not_options by (rewrite Hm; discriminate).
  rewrite Hp. change (dispatch rt request "/payment") with (case_payment rt request).
  rewrite (case_payment_unauthenticated rt request a Hm Ha Ht).
  rewrite merchant_pay_calls_guarded.
  apply (authenticateMvola_no_merchant_pay rt).
Qed.

Lemma payment_headers_typed rt props tok first rest :
  is_MvolaPaymentRequest (VObj props) = true ->
  lookup "debitParty" props = Some (VArr (first :: rest)) ->
  exists hs, payment_headers rt (VObj (blanked props)) (VStr tok) = inr hs.
Proof.
  intros Hpr Hdp. cbn in Hpr.
  repeat (apply andb_prop in Hpr as [Hpr ?]).
  assert (Hfirst : is_key_value first = true).
  { match goal with
    | H : required is_party "debitParty" props = true |- _ =>
        unfold required in H; rewrite Hdp in H; cbn in H;
        now apply andb_prop in H as [H _]
    end. }
  destruct first as [| | | | |items|ps]; try discriminate. cbn in Hfirst.
  destruct (lookup "key" ps) as [[| | | |k| |]|]; try discriminate.
  destruct (lookup "value" ps) as [[| | | |v| |]|] eqn:Hv; try discriminate.
  unfold payment_headers, template, and_then. cbn [toString get key_text].
  rewrite lookup_blanked by discriminate. rewrite Hdp.
  cbn [get nth key_text]. rewrite Hv. cbn [toString]. eexists. reflexivity.
Qed.

(** C1.  For a POST /payment request whose body parses as a
    [MvolaPaymentRequest], every call made to the merchant-pay endpoint
    carries the serialisation of an object in which [requestDate],
    [requestingOrganisationTransactionReference] and
    [originalTransactionReference] hold the empty string, whatever the
    caller wrote there; and such a call is made, once, when the token
    response has a string [access_token] and the debit party is not
    empty. *)
Theorem correlation_fields_are_sent_empty
  (rt : Runtime) (request : Request) (paymentRequest : value) :
  req_method request = "POST" ->
  pathname (req_url request) = "/payment" ->
  req_json request = inr paymentRequest ->
  is_MvolaPaymentRequest paymentRequest = true ->
  (forall init,
     In init (merchant_pay_calls rt (fetch rt request)) ->
     exists props,
       init_body init = BodyText (JSON_stringify (VObj props))
       /\ blank "requestDate" props
       /\ blank "requestingOrganisationTransactionReference" props
       /\ blank "originalTransactionReference" props)
  /\ (forall auth token first rest,
        outcome (authenticateMvola rt) = inr auth ->
        get auth (KName "access_token") = inr (VStr token) ->
        get paymentRequest (KName "debitParty") = inr (VArr (first :: rest)) ->
        exists init, merchant_pay_calls rt (fetch rt request) = [init]).
Proof.
  intros Hm Hp Hj Hpr.
  destruct paymentRequest as [| | | | |items|props]; try discriminate.
  destruct (authenticateMvola_returns rt) as [a Ha].
  split.
  - intros init Hin.
    destruct (truthy a) eqn:Ht.
    + destruct (get_truthy a (KName "access_token") Ht) as [tok Htok].
      rewrite (fetch_payment_calls rt request a tok props Hm Hp Ha Ht Htok Hj)
        in Hin.
      destruct (payment_headers rt (VObj (blanked props)) tok) as [e|hs] eqn:Hh.
      * rewrite (initiateMvolaPayment_no_headers _ _ _ _ Hh) in Hin.
        contradiction.
      * destruct (initiateMvolaPayment_sends _ _ _ _ Hh) as [Hcalls _].
        rewrite Hcalls in Hin. destruct Hin as [<-|[]].
        exists (blanked props). split; [reflexivity|].
        apply blanked_is_blank.
    + rewrite (fetch_payment_unauthenticated_calls rt request a Hm Hp Ha Ht)
        in Hin.
      contradiction.
  - intros auth token first rest Hauth Htok Hdp.
    rewrite Ha in Hauth. injection Hauth as <-.
    pose proof (get_string_truthy _ _ _ Htok) as Ht.
    rewrite (fetch_payment_calls rt request a _ props Hm Hp Ha Ht Htok Hj).
    assert (Hl : lookup "debitParty" props = Some (VArr (first :: rest))).
    { cbn in Hdp. destruct (lookup "debitParty" props); congruence. }
    destruct (payment_headers_typed rt props token first rest Hpr Hl)
      as [hs Hh].
    destruct (initiateMvolaPayment_sends _ _ _ _ Hh) as [Hcalls _].
    eexists. exact Hcalls.
Qed.

Lemma correlation_fields_are_sent_empty_witness :
  let request :=
    request_to "POST" "/payment" (inr (sample_payment (party "0340000000"))) in
  (forall init,
     In init (merchant_pay_calls devapi (fetch devapi request)) ->
     exists props,
       init_body init = BodyText (JSON_stringify (VObj props))
       /\ blank "requestDate" props
       /\ blank "requestingOrganisationTransactionReference" props
       /\ blank "originalTransactionReference" props)
  /\ (forall auth token first rest,
        outcome (authenticateMvola devapi) = inr auth ->
        get auth (KName "access_token") = inr (VStr token) ->
        get (sample_payment (party "0340000000")) (KName "debitParty")
        = inr (VArr (first :: rest)) ->
        exists init, merchant_pay_calls devapi (fetch devapi request) = [init]).
Proof.
  apply (correlation_fields_are_sent_empty devapi
           (request_to "POST" "/payment"
              (inr (sample_payment (party "0340000000"))))
           (sample_payment (party "0340000000")));
    reflexivity.
Defined.

(** The call made for the sample payment: the caller's [requestDate] and
    [originalTransactionReference] are gone from the body. *)
Example sample_payment_call :
  map init_body
    (merchant_pay_calls devapi
       (fetch devapi
          (request_to "POST" "/payment"
             (inr (sample_payment (party "0340000000"))))))
  = [ BodyText
        (JSON_stringify
           (VObj [ ("amount", VStr "1000");
                   ("currency", VStr "Ar");
                   ("descriptionText", VStr "test");
                   ("debitParty", party "0340000000");
                   ("creditParty", party "0350000000");
                   ("metadata", VArr []);
                   ("requestDate", VStr "");
                   ("originalTransactionReference", VStr "");
                   ("requestingOrganisationTransactionReference", VStr "") ])) ].
Proof. vm_compute. reflexivity. Qed.

(** The scenario of the specification: token [abc123], provider answer 200
    with [{transactionReference: "TX1"}]. *)
Example sample_payment_response :
  outcome (fetch devapi
             (request_to "POST" "/payment"
                (inr (sample_payment (party "0340000000")))))
  = inr {| status := 200;
           headers := cors_with_type "application/json";
           body := Some (JSON_stringify
                           (VObj [ ("status", VNum 200);
                                   ("data",
                                    VObj [ ("transactionReference",
                                            VStr "TX1") ]) ])) |}.
Proof. vm_compute. reflexivity. Qed.

Lemma authentication_failure_gives_401_witness :
  let request := request_to "POST" "/payment" (inr (sample_payment (party "0340000000"))) in
  outcome (authenticateMvola offline) = inr VNull
  /\ outcome (fetch offline request)
     = inr {| status := 401;
              headers := cors_with_type "application/json";
              body := Some (JSON_stringify
                              (VObj [ ("error", VStr "Authentication failed") ])) |}
  /\ merchant_pay_calls offline (fetch offline request) = [].
Proof.
  apply (authentication_failure_gives_401 offline
           (inl (TypeError "error sending request"))).
  - reflexivity.
  - apply transport_error.
  - reflexivity.
  - right. reflexivity.
Defined.

(** The two other failures, on /auth: a refused credential is logged with
    the status and the text of the answer, a body that is not JSON with the
    exception; the client sees the same 401. *)
Example refused_credentials_on_auth :
  fetch refusing (request_to "POST" "/auth" no_body)
  = ([ Fetch "https://devapi.mvola.mg/token" (token_init "Og==");
       ConsoleError [ LogVal (VStr "Auth failed:"); LogVal (VNum 401);
                      LogVal (VStr "invalid_client") ] ],
     inr {| status := 401;
            headers := cors_with_type "application/json";
            body := Some (JSON_stringify
                            (VObj [ ("error", VStr "Authentication failed") ])) |}).
Proof. vm_compute. reflexivity. Qed.

Example garbled_token_on_auth :
  fetch garbled (request_to "POST" "/auth" no_body)
  = ([ Fetch "https://devapi.mvola.mg/token" (token_init "a2V5OnNlY3JldA==");
       ConsoleError [ LogVal (VStr "Auth error:");
                      LogErr (Exn "SyntaxError"
                                "Unexpected token < in JSON at position 0") ] ],
     inr {| status := 401;
            headers := cors_with_type "application/json";
            body := Some (JSON_stringify
                            (VObj [ ("error", VStr "Authentication failed") ])) |}).
Proof. vm_compute. reflexivity. Qed.

(** ** An empty debit party *)

Lemma payment_headers_no_payer rt props token :
  lookup "debitParty" props = Some (VArr []) ->
  payment_headers rt (VObj (blanked props)) (VStr token) = inl no_payer.
Proof.
  intros Hdp. unfold payment_headers, template, and_then.
  cbn [toString get key_text].
  rewrite lookup_blanked by discriminate. rewrite Hdp. reflexivity.
Qed.

(** C4, as the code has it.  For a POST /payment request, after a
    successful authentication, whose body has an empty [debitParty] list,
    reading [debitParty[0].value] throws a [TypeError] inside the [try] of
    [initiateMvolaPayment]: it is caught there, not by the top-level guard.
    No call to the merchant-pay endpoint is made and the client receives
    status 500 with the body [{status: 500, data: {error: message}}]. *)
Theorem empty_debit_party_is_caught_by_initiateMvolaPayment
  (rt : Runtime) (request : Request) (auth : value) (token : string)
  (props : list (string * value)) :
  req_method request = "POST" ->
  pathname (req_url request) = "/payment" ->
  outcome (authenticateMvola rt) = inr auth ->
  get auth (KName "access_token") = inr (VStr token) ->
  req_json request = inr (VObj props) ->
  lookup "debitParty" props = Some (VArr []) ->
  fetch rt request
  = ((trace (authenticateMvola rt) ++ [payment_error_line no_payer])%list,
     inr {| status := 500;
            headers := cors_with_type "application/json";
            body := Some (JSON_stringify
                            (VObj [ ("status", VNum 500);
                                    ("data",
                                     VObj [ ("error",
                                             VStr (exn_message no_payer)) ]) ])) |})
  /\ merchant_pay_calls rt (fetch rt request) = [].
Proof.
  intros Hm Hp Ha Htok Hj Hdp.
  pose proof (get_string_truthy _ _ _ Htok) as Ht.
  pose proof (payment_headers_no_payer rt props token Hdp) as Hh.
  pose proof (initiateMvolaPayment_no_headers _ _ _ _ Hh) as Hpay.
  destruct (case_payment_object rt request auth _ props Hm Ha Ht Htok Hj)
    as (r & Hr & Hcase).
  rewrite Hpay in Hr, Hcase. injection Hr as <-.
  assert (Hfetch :
    fetch rt request
    = ((trace (authenticateMvola rt) ++ [payment_error_line no_payer])%list,
       inr {| status := 500;
              headers := cors_with_type "application/json";
              body := Some (JSON_stringify
                              (PaymentResult_value (synthesized no_payer))) |})).
  { rewrite fetch_not_options by (rewrite Hm; discriminate).
    rewrite Hp.
    change (dispatch rt request "/payment") with (case_payment rt request).
    rewrite Hcase. reflexivity. }
  split; [exact Hfetch|].
  rewrite Hfetch. unfold merchant_pay_calls. rewrite trace_pair, calls_to_app.
  pose proof (authenticateMvola_no_merchant_pay rt) as Hnone.
  unfold merchant_pay_calls in Hnone. rewrite Hnone. reflexivity.
Qed.

Lemma empty_debit_party_is_caught_by_initiateMvolaPayment_witness :
  let request := request_to "POST" "/payment" (inr (sample_payment (VArr []))) in
  fetch devapi request
  = ((trace (authenticateMvola devapi) ++ [payment_error_line no_payer])%list,
     inr {| status := 500;
            headers := cors_with_type "application/json";
            body := Some (JSON_stringify
                            (VObj [ ("status", VNum 500);
                                    ("data",
                                     VObj [ ("error",
                                             VStr (exn_message no_payer)) ]) ])) |})
  /\ merchant_pay_calls devapi (fetch devapi request) = [].
Proof.
  apply (empty_debit_party_is_caught_by_initiateMvolaPayment devapi
           (request_to "POST" "/payment" (inr (sample_payment (VArr []))))
           sample_token "abc123"
           [ ("amount", VStr "1000");
             ("currency", VStr "Ar");
             ("descriptionText", VStr "test");
             ("debitParty", VArr []);
             ("creditParty", party "0350000000");
             ("metadata", VArr []);
             ("requestDate", VStr "2024-01-01T00:00:00.000Z");
             ("originalTransactionReference", VStr "REF-1") ]);
    reflexivity.
Defined.

(** C4 as stated fails: with an empty [debitParty] the top-level guard
    never runs.  The exception is logged by [initiateMvolaPayment], no
    handler error is logged, and the body is not
    [{error: "Internal server error", message}]. *)
Lemma empty_debit_party_bypasses_top_level_guard :
  let request := request_to "POST" "/payment" (inr (sample_payment (VArr []))) in
  let m := fetch devapi request in
  is_MvolaPaymentRequest (sample_payment (VArr [])) = true
  /\ get (sample_payment (VArr [])) (KName "debitParty") = inr (VArr [])
  /\ outcome (authenticateMvola devapi) = inr sample_token
  /\ In (payment_error_line no_payer) (trace m)
  /\ (forall e, ~ In (handler_error_line e) (trace m))
  /\ exists r,
       outcome m = inr r
       /\ status r = 500
       /\ forall message,
            body r
            <> Some (JSON_stringify
                       (VObj [ ("error", VStr "Internal server error");
                               ("message", VStr message) ])).
Proof.
  cbv zeta.
  split; [reflexivity|]. split; [reflexivity|]. split; [reflexivity|].
  split; [vm_compute; auto|].
  split.
  - intros e H. vm_compute in H. destruct H as [H|[H|[]]]; discriminate.
  - eexists. split; [vm_compute; reflexivity|]. split; [reflexivity|].
    intros message H. vm_compute in H. discriminate.
Qed.

(** ** [authenticateMvola], path by path *)

Lemma authenticateMvola_run (rt : Runtime) :
  authenticateMvola rt
  = match basic_credentials rt with
    | inl e => ([auth_error_line e], inr VNull)
    | inr c =>
        let call := Fetch (token_url rt) (token_init c) in
        match global_fetch rt (token_url rt) (token_init c) with
        | inl e => ([call; auth_error_line e], inr VNull)
        | inr res =>
            if res_ok res then
              match res_json res with
              | inl e => ([call; auth_error_line e], inr VNull)
              | inr a => ([call], inr a)
              end
            else
              match res_text res with
              | inl e => ([call; auth_error_line e], inr VNull)
              | inr text =>
                  ([call;
                    ConsoleError [ LogVal (VStr "Auth failed:");
                                   LogVal (VNum (res_status res));
                                   LogVal (VStr text) ]],
                   inr VNull)
              end
        end
    end.
Proof.
  unfold authenticateMvola, basic_credentials.
  destruct (btoa _) as [e|c]; step; [reflexivity|].
  destruct (global_fetch rt _ _) as [e|res] eqn:Hf; fetched Hf; [reflexivity|].
  destruct (res_ok res); cbn [negb].
  - destruct (res_json res); step; reflexivity.
  - destruct (res_text res); step; reflexivity.
Qed.

Lemma fetches_app (s t : list Event) :
  fetches (s ++ t) = (fetches s ++ fetches t)%list.
Proof.
  induction s as [|ev s IH]; [reflexivity|].
  destruct ev; cbn; now rewrite ?IH.
Qed.

Lemma error_lines_app (s t : list Event) :
  error_lines (s ++ t) = (error_lines s ++ error_lines t)%list.
Proof.
  induction s as [|ev s IH]; [reflexivity|].
  destruct ev; cbn; now rewrite ?IH.
Qed.

Lemma calls_to_fetches (u : string) (t : list Event) :
  calls_to u t
  = map snd (filter (fun p => (fst p =? u)%string) (fetches t)).
Proof.
  induction t as [|ev t IH]; [reflexivity|].
  destruct ev as [args|args|u' init]; cbn; try exact IH.
  destruct (u' =? u)%string; cbn; now rewrite IH.
Qed.

Lemma authenticateMvola_truthy rt a :
  outcome (authenticateMvola rt) = inr a ->
  truthy a = true ->
  exists c res,
    basic_credentials rt = inr c
    /\ global_fetch rt (token_url rt) (token_init c) = inr res
    /\ res_ok res = true
    /\ res_json res = inr a
    /\ trace (authenticateMvola rt) = [Fetch (token_url rt) (token_init c)].
Proof.
  rewrite authenticateMvola_run.
  destruct (basic_credentials rt) as [e|c].
  { intros [= <-]; discriminate. }
  cbv zeta.
  destruct (global_fetch rt _ _) as [e|res] eqn:Hf.
  { intros [= <-]; discriminate. }
  destruct (res_ok res) eqn:Hok.
  - destruct (res_json res) as [e|a'] eqn:Hj.
    + intros [= <-]; discriminate.
    + intros [= <-] _. exists c, res. auto.
  - destruct (res_text res); intros [= <-]; discriminate.
Qed.

(** ** The routes, given the outcome of authentication *)

Lemma case_auth_run rt request a :
  req_method request = "POST" ->
  outcome (authenticateMvola rt) = inr a ->
  case_auth rt request
  = (trace (authenticateMvola rt),
     inr (if truthy a then token_response a else unauthorized)).
Proof.
  intros Hm Ha. unfold case_auth. rewrite Hm.
  cbn [String.eqb Ascii.eqb Bool.eqb negb].
  rewrite (bind_run _ _ a Ha).
  destruct (truthy a) eqn:Ht; cbn [negb].
  - destruct (get_truthy a (KName "access_token") Ht) as [x Hx].
    destruct (get_truthy a (KName "expires_in") Ht) as [y Hy].
    unfold token_response, read. rewrite Hx, Hy. step.
    rewrite app_nil_r. reflexivity.
  - unfold authentication_failed. step. rewrite app_nil_r. reflexivity.
Qed.

Lemma case_payment_no_body rt request a e :
  req_method request = "POST" ->
  outcome (authenticateMvola rt) = inr a ->
  truthy a = true ->
  req_json request = inl e ->
  case_payment rt request = (trace (authenticateMvola rt), inl e).
Proof.
  intros Hm Ha Ht Hj. unfold case_payment. rewrite Hm.
  cbn [String.eqb Ascii.eqb Bool.eqb negb].
  rewrite (bind_run _ _ a Ha), Ht. cbn [negb]. rewrite Hj. step.
  rewrite app_nil_r. reflexivity.
Qed.

Lemma case_payment_not_assignable rt request a pd e :
  req_method request = "POST" ->
  outcome (authenticateMvola rt) = inr a ->
  truthy a = true ->
  req_json request = inr pd ->
  overwritten pd = inl e ->
  case_payment rt request = (trace (authenticateMvola rt), inl e).
Proof.
  intros Hm Ha Ht Hj Ho. unfold case_payment. rewrite Hm.
  cbn [String.eqb Ascii.eqb Bool.eqb negb].
  rewrite (bind_run _ _ a Ha), Ht. cbn [negb]. rewrite Hj. step.
  unfold overwritten, and_then in Ho.
  destruct (set pd "requestDate" (VStr "")) as [e1|p1]; step.
  { injection Ho as <-. now rewrite app_nil_r. }
  destruct (set p1 "requestingOrganisationTransactionReference" (VStr ""))
    as [e2|p2]; step.
  { injection Ho as <-. now rewrite app_nil_r. }
  rewrite Ho. step. now rewrite app_nil_r.
Qed.

Lemma case_payment_run rt request a pd p :
  req_method request = "POST" ->
  outcome (authenticateMvola rt) = inr a ->
  truthy a = true ->
  req_json request = inr pd ->
  overwritten pd = inr p ->
  let pay := initiateMvolaPayment rt p (read a "access_token") in
  exists r,
    outcome pay = inr r
    /\ case_payment rt request
       = ((trace (authenticateMvola rt) ++ trace pay)%list,
          new_Response (Some (JSON_stringify (PaymentResult_value r)))
            (Some (pr_status r)) (cors_with_type "application/json")).
Proof.
  intros Hm Ha Ht Hj Ho pay. subst pay.
  destruct (get_truthy a (KName "access_token") Ht) as [tok Htok].
  unfold read. rewrite Htok.
  destruct (initiateMvolaPayment_returns rt p tok) as [r Hr].
  exists r. split; [exact Hr|].
  unfold case_payment. rewrite Hm.
  cbn [String.eqb Ascii.eqb Bool.eqb negb].
  rewrite (bind_run _ _ a Ha), Ht. cbn [negb]. rewrite Hj. step.
  unfold overwritten, and_then in Ho.
  destruct (set pd "requestDate" (VStr "")) as [e1|p1]; [discriminate|]. step.
  destruct (set p1 "requestingOrganisationTransactionReference" (VStr ""))
    as [e2|p2]; [discriminate|]. step.
  rewrite Ho, Htok. step.
  rewrite (bind_run _ _ r Hr). step. rewrite app_nil_r. reflexivity.
Qed.



Lemma guarded_throw (t : list Event) (e : exn) :
  try_catch (t, inl e) internal_error
  = ((t ++ [handler_error_line e])%list,
     inr (internal_server_error (exn_message e))).
Proof. reflexivity. Qed.

Lemma initiateMvolaPayment_fetches rt p tok :
  fetches (trace (initiateMvolaPayment rt p tok))
  = match payment_headers rt p tok with
    | inr hs => [(merchant_pay_url rt, merchant_pay_init hs p)]
    | inl _ => []
    end.
Proof.
  unfold initiateMvolaPayment.
  destruct (payment_headers rt p tok) as [e|hs]; step; [reflexivity|].
  match goal with
  | |- context [await_fetch rt ?u ?i] =>
      destruct (global_fetch rt u i) as [e|res] eqn:Hf
  end; fetched Hf; [reflexivity|].
  destruct (res_json res); step; reflexivity.
Qed.

(** ** Routes that need no authentication *)

(** X1.  A request whose method is OPTIONS is answered before any routing:
    status 200, no body, the cross-origin headers and nothing else, and no
    effect at all, whatever the path and the body. *)
Theorem preflight_short_circuits (rt : Runtime) (request : Request) :
  req_method request = "OPTIONS" ->
  fetch rt request
  = ([], inr {| status := 200; headers := corsHeaders; body := None |}).
Proof. intros Hm. unfold fetch. rewrite Hm. reflexivity. Qed.

Lemma preflight_short_circuits_witness :
  fetch offline (request_to "OPTIONS" "/payment" no_body)
  = ([], inr {| status := 200; headers := corsHeaders; body := None |}).
Proof.
  apply (preflight_short_circuits offline
           (request_to "OPTIONS" "/payment" no_body)).
  reflexivity.
Defined.

(** X2.  A path that is none of /, /test, /auth, /payment, /webhook is
    answered 404 with the text Not Found, for every method other than
    OPTIONS, without any effect. *)
Theorem unknown_path_is_404 (rt : Runtime) (request : Request) :
  req_method request <> "OPTIONS" ->
  routed (pathname (req_url request)) = false ->
  fetch rt request
  = ([], inr {| status := 404; headers := corsHeaders; body := Some "Not Found" |}).
Proof.
  intros Hm Hr. rewrite (fetch_not_options rt request Hm).
  unfold routed in Hr. repeat (apply orb_false_elim in Hr as [Hr ?]).
  unfold dispatch.
  repeat match goal with H : (_ =? _)%string = false |- _ => rewrite H; clear H end.
  reflexivity.
Qed.

Lemma unknown_path_is_404_witness :
  fetch devapi (request_to "POST" "/payment/" no_body)
  = ([], inr {| status := 404; headers := corsHeaders; body := Some "Not Found" |}).
Proof.
  apply (unknown_path_is_404 devapi (request_to "POST" "/payment/" no_body)).
  - discriminate.
  - reflexivity.
Defined.

(** X3.  The root path answers every method other than OPTIONS, POST
    included, with status 200 and the plain-text banner, without any
    effect. *)
Theorem root_banner_for_any_method (rt : Runtime) (request : Request) :
  req_method request <> "OPTIONS" ->
  pathname (req_url request) = "/" ->
  fetch rt request
  = ([], inr {| status := 200;
                headers := cors_with_type "text/plain";
                body := Some banner |}).
Proof.
  intros Hm Hp. rewrite (fetch_not_options rt request Hm), Hp. reflexivity.
Qed.

Lemma root_banner_for_any_method_witness :
  fetch offline (request_to "DELETE" "/" no_body)
  = ([], inr {| status := 200;
                headers := cors_with_type "text/plain";
                body := Some banner |}).
Proof.
  apply (root_banner_for_any_method offline (request_to "DELETE" "/" no_body)).
  - discriminate.
  - reflexivity.
Defined.

(** X4.  A POST /webhook request whose body cannot be parsed is answered
    500 by the top-level guard, and the message of the parse exception is
    sent to the client in the body; the exception is logged and nothing
    else happens. *)
Theorem webhook_parse_error_is_leaked
  (rt : Runtime) (request : Request) (e : exn) :
  req_method request = "POST" ->
  pathname (req_url request) = "/webhook" ->
  req_json request = inl e ->
  fetch rt request
  = ([handler_error_line e], inr (internal_server_error (exn_message e))).
Proof.
  intros Hm Hp Hj.
  rewrite fetch_not_options by (rewrite Hm; discriminate).
  rewrite Hp. change (dispatch rt request "/webhook") with (case_webhook request).
  unfold case_webhook. rewrite Hm, Hj. reflexivity.
Qed.

Lemma webhook_parse_error_is_leaked_witness :
  fetch devapi (request_to "POST" "/webhook" no_body)
  = ([handler_error_line (Exn "SyntaxError" "Unexpected end of JSON input")],
     inr (internal_server_error "Unexpected end of JSON input")).
Proof.
  apply (webhook_parse_error_is_leaked devapi
           (request_to "POST" "/webhook" no_body)
           (Exn "SyntaxError" "Unexpected end of JSON input"));
    reflexivity.
Defined.

(** ** [authenticateMvola] *)

(** X5.  [authenticateMvola] makes at most one outbound call: a POST to
    the token endpoint with [Authorization: Basic] followed by the base64
    of key, colon, secret, the form content type, no caching and the two
    form fields; it makes none when [btoa] refuses the credentials. *)
Theorem authenticateMvola_calls (rt : Runtime) :
  fetches (trace (authenticateMvola rt))
  = match btoa (CONSUMER_KEY (MVOLA_CONFIG rt) ++ ":"
                  ++ CONSUMER_SECRET (MVOLA_CONFIG rt)) with
    | inr credentials =>
        [ ("https://devapi.mvola.mg/token",
           {| init_method := "POST";
              init_headers :=
                [ ("Authorization", "Basic " ++ credentials);
                  ("Content-Type", "application/x-www-form-urlencoded");
                  ("Cache-Control", "no-cache") ];
              init_body :=
                BodyForm [ ("grant_type", "client_credentials");
                           ("scope", "EXT_INT_MVOLA_SCOPE") ] |}) ]
    | inl _ => []
    end.
Proof.
  rewrite authenticateMvola_run. unfold basic_credentials.
  destruct (btoa _) as [e|c]; [reflexivity|]. cbv zeta.
  destruct (global_fetch rt _ _) as [e|res]; [reflexivity|].
  destruct (res_ok res).
  - destruct (res_json res); reflexivity.
  - destruct (res_text res); reflexivity.
Qed.

(** X6.  [authenticateMvola] ends in one of two ways.  Either the token
    endpoint answered with a status in 200..299 and a JSON body: that
    parsed body is returned as it is, whatever its shape, and nothing is
    written to the console.  Or the result is [null] and exactly one line
    was written with [console.error]. *)
Theorem authenticateMvola_dichotomy (rt : Runtime) :
  (exists c res a,
      basic_credentials rt = inr c
      /\ global_fetch rt (token_url rt) (token_init c) = inr res
      /\ res_ok res = true
      /\ res_json res = inr a
      /\ authenticateMvola rt = ([Fetch (token_url rt) (token_init c)], inr a))
  \/ (outcome (authenticateMvola rt) = inr VNull
      /\ exists line, error_lines (trace (authenticateMvola rt)) = [line]).
Proof.
  rewrite authenticateMvola_run.
  destruct (basic_credentials rt) as [e|c]; [right; cbn; eauto|]. cbv zeta.
  destruct (global_fetch rt _ _) as [e|res] eqn:Hf; [right; cbn; eauto|].
  destruct (res_ok res) eqn:Hok.
  - destruct (res_json res) as [e|a] eqn:Hj; [right; cbn; eauto|].
    left. exists c, res, a. auto.
  - destruct (res_text res); right; cbn; eauto.
Qed.

(** X7.  When neither environment variable is set, or both are empty, the
    absence is not detected: the token call is still made, with the
    credentials of an empty key and an empty secret, [Basic Og==]. *)
Theorem missing_credentials_are_sent (rt : Runtime) :
  env_get rt "MVOLA_CONSUMER_KEY" = None
    \/ env_get rt "MVOLA_CONSUMER_KEY" = Some "" ->
  env_get rt "MVOLA_CONSUMER_SECRET" = None
    \/ env_get rt "MVOLA_CONSUMER_SECRET" = Some "" ->
  exists init,
    fetches (trace (authenticateMvola rt))
    = [("https://devapi.mvola.mg/token", init)]
    /\ In ("Authorization", "Basic Og==") (init_headers init).
Proof.
  intros Hk Hs. rewrite authenticateMvola_run.
  assert (Hc : basic_credentials rt = inr "Og==").
  { unfold basic_credentials, MVOLA_CONFIG. cbn [CONSUMER_KEY CONSUMER_SECRET].
    destruct Hk as [-> | ->]; destruct Hs as [-> | ->]; reflexivity. }
  rewrite Hc. cbv zeta.
  exists (token_init "Og==").
  destruct (global_fetch rt _ _) as [e|res].
  - split; [reflexivity | cbn; auto].
  - destruct (res_ok res).
    + destruct (res_json res); (split; [reflexivity | cbn; auto]).
    + destruct (res_text res); (split; [reflexivity | cbn; auto]).
Qed.

Lemma missing_credentials_are_sent_witness :
  exists init,
    fetches (trace (authenticateMvola unconfigured))
    = [("https://devapi.mvola.mg/token", init)]
    /\ In ("Authorization", "Basic Og==") (init_headers init).
Proof.
  apply (missing_credentials_are_sent unconfigured);
    left; reflexivity.
Defined.

Ltac enter_route Hm Hp :=
  rewrite fetch_not_options by (rewrite Hm; discriminate);
  rewrite Hp;
  match goal with
  | |- context [dispatch ?rt ?rq "/auth"] =>
      change (dispatch rt rq "/auth") with (case_auth rt rq)
  | |- context [dispatch ?rt ?rq "/payment"] =>
      change (dispatch rt rq "/payment") with (case_payment rt rq)
  end.

Lemma authenticateMvola_succeeds rt c res a :
  basic_credentials rt = inr c ->
  global_fetch rt (token_url rt) (token_init c) = inr res ->
  res_ok res = true ->
  res_json res = inr a ->
  authenticateMvola rt = ([Fetch (token_url rt) (token_init c)], inr a).
Proof.
  intros Hc Hf Hok Hj. rewrite authenticateMvola_run, Hc. cbv zeta.
  now rewrite Hf, Hok, Hj.
Qed.

(** ** The routes that authenticate *)

(** X8.  After a token answer with a status in 200..299 and a truthy JSON
    body, POST /auth answers 200 with [{success: true, token, expires_in}],
    [token] and [expires_in] being the [access_token] and [expires_in]
    properties of that body (left out when the body has none).  The token
    call is the only effect. *)
Theorem auth_hands_out_the_token
  (rt : Runtime) (request : Request) (c : string) (res : FetchResponse)
  (a : value) :
  req_method request = "POST" ->
  pathname (req_url request) = "/auth" ->
  basic_credentials rt = inr c ->
  global_fetch rt (token_url rt) (token_init c) = inr res ->
  res_ok res = true ->
  res_json res = inr a ->
  truthy a = true ->
  fetch rt request
  = ([Fetch (token_url rt) (token_init c)],
     inr {| status := 200;
            headers := cors_with_type "application/json";
            body := Some (JSON_stringify
                            (VObj [ ("success", VBool true);
                                    ("token", read a "access_token");
                                    ("expires_in", read a "expires_in") ])) |}).
Proof.
  intros Hm Hp Hc Hf Hok Hj Ht.
  pose proof (authenticateMvola_succeeds rt c res a Hc Hf Hok Hj) as Hrun.
  enter_route Hm Hp.
  rewrite (case_auth_run rt request a Hm) by (now rewrite Hrun).
  rewrite Ht, Hrun. reflexivity.
Qed.

Lemma auth_hands_out_the_token_witness :
  fetch devapi (request_to "POST" "/auth" no_body)
  = ([Fetch (token_url devapi) (token_init "a2V5OnNlY3JldA==")],
     inr {| status := 200;
            headers := cors_with_type "application/json";
            body := Some (JSON_stringify
                            (VObj [ ("success", VBool true);
                                    ("token", read sample_token "access_token");
                                    ("expires_in", read sample_token "expires_in") ])) |}).
Proof.
  apply (auth_hands_out_the_token devapi (request_to "POST" "/auth" no_body)
           "a2V5OnNlY3JldA=="
           {| res_status := 200; res_text := inr ""; res_json := inr sample_token |}
           sample_token);
    reflexivity.
Defined.

(** X9.  A token answer with a status in 200..299 whose JSON body is
    falsy ([null], [false], [0] or the empty string) counts as a failed
    authentication: POST /auth and POST /payment answer 401, and nothing
    is written to the console. *)
Theorem falsy_token_answer_is_401
  (rt : Runtime) (request : Request) (c : string) (res : FetchResponse)
  (a : value) :
  req_method request = "POST" ->
  pathname (req_url request) = "/auth"
    \/ pathname (req_url request) = "/payment" ->
  basic_credentials rt = inr c ->
  global_fetch rt (token_url rt) (token_init c) = inr res ->
  res_ok res = true ->
  res_json res = inr a ->
  truthy a = false ->
  fetch rt request
  = ([Fetch (token_url rt) (token_init c)],
     inr {| status := 401;
            headers := cors_with_type "application/json";
            body := Some (JSON_stringify
                            (VObj [ ("error", VStr "Authentication failed") ])) |}).
Proof.
  intros Hm Hp Hc Hf Hok Hj Ht.
  pose proof (authenticateMvola_succeeds rt c res a Hc Hf Hok Hj) as Hrun.
  assert (Ha : outcome (authenticateMvola rt) = inr a) by (now rewrite Hrun).
  destruct Hp as [Hp|Hp]; enter_route Hm Hp.
  - rewrite (case_auth_run rt request a Hm Ha), Ht, Hrun. reflexivity.
  - rewrite (case_payment_unauthenticated rt request a Hm Ha Ht), Hrun.
    reflexivity.
Qed.

Lemma falsy_token_answer_is_401_witness :
  fetch null_token
    (request_to "POST" "/payment" (inr (sample_payment (party "0340000000"))))
  = ([Fetch (token_url null_token) (token_init "a2V5OnNlY3JldA==")],
     inr {| status := 401;
            headers := cors_with_type "application/json";
            body := Some (JSON_stringify
                            (VObj [ ("error", VStr "Authentication failed") ])) |}).
Proof.
  apply (falsy_token_answer_is_401 null_token
           (request_to "POST" "/payment"
              (inr (sample_payment (party "0340000000"))))
           "a2V5OnNlY3JldA=="
           {| res_status := 200; res_text := inr ""; res_json := inr VNull |}
           VNull);
    try reflexivity.
  right. reflexivity.
Defined.

(** X10.  When [btoa] refuses the credentials (a character outside
    Latin-1 in the key or the secret), no outbound call is made at all:
    the exception is logged, and POST /auth and POST /payment answer
    401. *)
Theorem unencodable_credentials_are_401
  (rt : Runtime) (request : Request) (e : exn) :
  req_method request = "POST" ->
  pathname (req_url request) = "/auth"
    \/ pathname (req_url request) = "/payment" ->
  btoa (CONSUMER_KEY (MVOLA_CONFIG rt) ++ ":"
          ++ CONSUMER_SECRET (MVOLA_CONFIG rt)) = inl e ->
  fetch rt request
  = ([ConsoleError [ LogVal (VStr "Auth error:"); LogErr e ]],
     inr {| status := 401;
            headers := cors_with_type "application/json";
            body := Some (JSON_stringify
                            (VObj [ ("error", VStr "Authentication failed") ])) |}).
Proof.
  intros Hm Hp Hc.
  assert (Hrun : authenticateMvola rt = ([auth_error_line e], inr VNull)).
  { rewrite authenticateMvola_run. unfold basic_credentials. now rewrite Hc. }
  assert (Ha : outcome (authenticateMvola rt) = inr VNull) by (now rewrite Hrun).
  destruct Hp as [Hp|Hp]; enter_route Hm Hp.
  - rewrite (case_auth_run rt request VNull Hm Ha), Hrun. reflexivity.
  - rewrite (case_payment_unauthenticated rt request VNull Hm Ha eq_refl), Hrun.
    reflexivity.
Qed.

Lemma unencodable_credentials_are_401_witness :
  fetch euro_key (request_to "POST" "/auth" no_body)
  = ([ConsoleError
        [ LogVal (VStr "Auth error:");
          LogErr (DOMException "Cannot encode string: string contains characters outside of the Latin1 range") ]],
     inr {| status := 401;
            headers := cors_with_type "application/json";
            body := Some (JSON_stringify
                            (VObj [ ("error", VStr "Authentication failed") ])) |}).
Proof.
  apply (unencodable_credentials_are_401 euro_key
           (request_to "POST" "/auth" no_body)).
  - reflexivity.
  - left. reflexivity.
  - reflexivity.
Defined.

(** X11.  The body of a POST /payment request is read only after
    authentication.  When authentication succeeded and the body cannot be
    parsed, the top-level guard answers 500 with the message of the parse
    exception; the token call has been made, no payment is initiated. *)
Theorem payment_body_is_parsed_after_authentication
  (rt : Runtime) (request : Request) (a : value) (e : exn) :
  req_method request = "POST" ->
  pathname (req_url request) = "/payment" ->
  outcome (authenticateMvola rt) = inr a ->
  truthy a = true ->
  req_json request = inl e ->
  fetch rt request
  = ((trace (authenticateMvola rt) ++ [handler_error_line e])%list,
     inr (internal_server_error (exn_message e)))
  /\ exists c,
       fetches (trace (fetch rt request)) = [(token_url rt, token_init c)].
Proof.
  intros Hm Hp Ha Ht Hj.
  assert (Hfetch :
    fetch rt request
    = ((trace (authenticateMvola rt) ++ [handler_error_line e])%list,
       inr (internal_server_error (exn_message e)))).
  { enter_route Hm Hp.
    rewrite (case_payment_no_body rt request a e Hm Ha Ht Hj).
    apply guarded_throw. }
  split; [exact Hfetch|].
  destruct (authenticateMvola_truthy rt a Ha Ht) as (c & res & _ & _ & _ & _ & Htr).
  exists c. rewrite Hfetch, trace_pair, Htr. reflexivity.
Qed.

Lemma payment_body_is_parsed_after_authentication_witness :
  fetch devapi (request_to "POST" "/payment" no_body)
  = ((trace (authenticateMvola devapi)
        ++ [handler_error_line (Exn "SyntaxError" "Unexpected end of JSON input")])%list,
     inr (internal_server_error "Unexpected end of JSON input"))
  /\ exists c,
       fetches (trace (fetch devapi (request_to "POST" "/payment" no_body)))
       = [(token_url devapi, token_init c)].
Proof.
  apply (payment_body_is_parsed_after_authentication devapi
           (request_to "POST" "/payment" no_body) sample_token
           (Exn "SyntaxError" "Unexpected end of JSON input"));
    reflexivity.
Defined.

(** X12.  A POST /payment body that parses to [null] or to a primitive
    (a number, a string, a boolean) makes the first assignment throw, in
    the handler itself: after a successful authentication the top-level
    guard answers 500 with that exception's message, and no payment is
    initiated. *)
Theorem payment_body_must_be_assignable
  (rt : Runtime) (request : Request) (a paymentRequest : value) (e : exn) :
  req_method request = "POST" ->
  pathname (req_url request) = "/payment" ->
  outcome (authenticateMvola rt) = inr a ->
  truthy a = true ->
  req_json request = inr paymentRequest ->
  set paymentRequest "requestDate" (VStr "") = inl e ->
  fetch rt request
  = ((trace (authenticateMvola rt) ++ [handler_error_line e])%list,
     inr (internal_server_error (exn_message e)))
  /\ merchant_pay_calls rt (fetch rt request) = [].
Proof.
  intros Hm Hp Ha Ht Hj Hset.
  assert (Ho : overwritten paymentRequest = inl e).
  { unfold overwritten, and_then. now rewrite Hset. }
  assert (Hfetch :
    fetch rt request
    = ((trace (authenticateMvola rt) ++ [handler_error_line e])%list,
       inr (internal_server_error (exn_message e)))).
  { enter_route Hm Hp.
    rewrite (case_payment_not_assignable rt request a _ e Hm Ha Ht Hj Ho).
    apply guarded_throw. }
  split; [exact Hfetch|].
  rewrite Hfetch. unfold merchant_pay_calls. rewrite trace_pair, calls_to_app.
  pose proof (authenticateMvola_no_merchant_pay rt) as Hnone.
  unfold merchant_pay_calls in Hnone. now rewrite Hnone.
Qed.

Lemma payment_body_must_be_assignable_witness :
  let e := TypeError "Cannot set properties of null (setting 'requestDate')" in
  fetch devapi (request_to "POST" "/payment" (inr VNull))
  = ((trace (authenticateMvola devapi) ++ [handler_error_line e])%list,
     inr (internal_server_error (exn_message e)))
  /\ merchant_pay_calls devapi
       (fetch devapi (request_to "POST" "/payment" (inr VNull))) = [].
Proof.
  apply (payment_body_must_be_assignable devapi
           (request_to "POST" "/payment" (inr VNull)) sample_token VNull);
    reflexivity.
Defined.

(** ** The outbound calls of a request *)

Lemma fetches_guarded (t : list Event) (r : exn + Response) :
  fetches (trace (try_catch (t, r) internal_error)) = fetches t.
Proof.
  destruct r as [e|resp]; step; [|reflexivity].
  rewrite fetches_app. cbn. apply app_nil_r.
Qed.

Lemma fetch_payment_fetches rt request a :
  req_method request = "POST" ->
  pathname (req_url request) = "/payment" ->
  outcome (authenticateMvola rt) = inr a ->
  fetches (trace (fetch rt request))
  = (fetches (trace (authenticateMvola rt))
       ++ if truthy a then
            match req_json request with
            | inr pd =>
                match overwritten pd with
                | inr p =>
                    fetches (trace (initiateMvolaPayment rt p
                                      (read a "access_token")))
                | inl _ => []
                end
            | inl _ => []
            end
          else [])%list.
Proof.
  intros Hm Hp Ha.
  rewrite fetch_not_options by (rewrite Hm; discriminate).
  rewrite Hp. change (dispatch rt request "/payment") with (case_payment rt request).
  destruct (truthy a) eqn:Ht.
  - destruct (req_json request) as [e|pd] eqn:Hj.
    { rewrite (case_payment_no_body rt request a e Hm Ha Ht Hj).
      rewrite fetches_guarded. now rewrite app_nil_r. }
    destruct (overwritten pd) as [e|p] eqn:Ho.
    { rewrite (case_payment_not_assignable rt request a pd e Hm Ha Ht Hj Ho).
      rewrite fetches_guarded. now rewrite app_nil_r. }
    destruct (case_payment_run rt request a pd p Hm Ha Ht Hj Ho)
      as (r & _ & ->).
    rewrite fetches_guarded. apply fetches_app.
  - rewrite (case_payment_unauthenticated rt request a Hm Ha Ht).
    change (fetches (trace (try_catch (trace (authenticateMvola rt), inr unauthorized) internal_error))
            = (fetches (trace (authenticateMvola rt)) ++ [])%list).
    rewrite fetches_guarded. now rewrite app_nil_r.
Qed.

(** The three shapes of the list of outbound calls of a request. *)
Lemma fetch_fetches (rt : Runtime) (request : Request) :
  fetches (trace (fetch rt request)) = []
  \/ (req_method request = "POST"
      /\ (pathname (req_url request) = "/auth"
          \/ pathname (req_url request) = "/payment")
      /\ fetches (trace (fetch rt request))
         = fetches (trace (authenticateMvola rt)))
  \/ (req_method request = "POST"
      /\ pathname (req_url request) = "/payment"
      /\ exists a c init,
           outcome (authenticateMvola rt) = inr a
           /\ truthy a = true
           /\ fetches (trace (fetch rt request))
              = [(token_url rt, token_init c); (merchant_pay_url rt, init)]).
Proof.
  destruct (String.eqb_spec (req_method request) "OPTIONS") as [Ho|Ho].
  { left. unfold fetch. rewrite Ho. reflexivity. }
  destruct (String.eqb_spec (pathname (req_url request)) "/auth") as [Hp|Hauth].
  { destruct (String.eqb_spec (req_method request) "POST") as [Hm|Hm].
    - right; left. split; [exact Hm|]. split; [now left|].
      destruct (authenticateMvola_returns rt) as [a Ha].
      rewrite fetch_not_options by exact Ho. rewrite Hp.
      change (dispatch rt request "/auth") with (case_auth rt request).
      rewrite (case_auth_run rt request a Hm Ha). apply fetches_guarded.
    - left. rewrite fetch_not_options by exact Ho. rewrite Hp.
      change (dispatch rt request "/auth") with (case_auth rt request).
      unfold case_auth. rewrite (eqb_false_of_neq _ _ Hm). reflexivity. }
  destruct (String.eqb_spec (pathname (req_url request)) "/payment")
    as [Hp|Hpay].
  { destruct (String.eqb_spec (req_method request) "POST") as [Hm|Hm].
    - destruct (authenticateMvola_returns rt) as [a Ha].
      pose proof (fetch_payment_fetches rt request a Hm Hp Ha) as Hf.
      destruct (truthy a) eqn:Ht;
        [|right; left; rewrite app_nil_r in Hf; auto].
      destruct (req_json request) as [e|pd];
        [right; left; rewrite app_nil_r in Hf; auto|].
      destruct (overwritten pd) as [e|p];
        [right; left; rewrite app_nil_r in Hf; auto|].
      rewrite initiateMvolaPayment_fetches in Hf.
      destruct (payment_headers rt p (read a "access_token")) as [e|hs];
        [right; left; rewrite app_nil_r in Hf; auto|].
      right; right. split; [exact Hm|]. split; [exact Hp|].
      destruct (authenticateMvola_truthy rt a Ha Ht)
        as (c & res & _ & _ & _ & _ & Htr).
      exists a, c, (merchant_pay_init hs p).
      split; [exact Ha|]. split; [exact Ht|].
      rewrite Hf, Htr. reflexivity.
    - left. rewrite fetch_not_options by exact Ho. rewrite Hp.
      change (dispatch rt request "/payment") with (case_payment rt request).
      unfold case_payment. rewrite (eqb_false_of_neq _ _ Hm). reflexivity. }
  left. rewrite fetch_not_options by exact Ho.
  unfold dispatch.
  rewrite (eqb_false_of_neq _ _ Hauth), (eqb_false_of_neq _ _ Hpay).
  destruct (pathname (req_url request) =? "/")%string; [reflexivity|].
  destruct (pathname (req_url request) =? "/test")%string; [reflexivity|].
  destruct (pathname (req_url request) =? "/webhook")%string; [|reflexivity].
  unfold case_webhook.
  destruct (req_method request =? "POST")%string; [|reflexivity].
  destruct (req_json request); reflexivity.
Qed.

(** X13.  No payment is initiated before authentication has succeeded: a
    call to the merchant-pay endpoint occurs only in a POST /payment
    request whose authentication returned a truthy token response, and the
    outbound calls of that request are then exactly two, the token call
    first and the merchant-pay call second. *)
Theorem merchant_pay_follows_authentication
  (rt : Runtime) (request : Request) (init : RequestInit) :
  In init (merchant_pay_calls rt (fetch rt request)) ->
  req_method request = "POST"
  /\ pathname (req_url request) = "/payment"
  /\ exists a c,
       outcome (authenticateMvola rt) = inr a
       /\ truthy a = true
       /\ fetches (trace (fetch rt request))
          = [ (token_url rt, token_init c); (merchant_pay_url rt, init) ].
Proof.
  unfold merchant_pay_calls. rewrite calls_to_fetches. intros Hin.
  destruct (fetch_fetches rt request)
    as [Hf | [(Hm & Hp & Hf) | (Hm & Hp & a & c & init' & Ha & Ht & Hf)]].
  - rewrite Hf in Hin. contradiction.
  - rewrite Hf, <- calls_to_fetches in Hin.
    pose proof (authenticateMvola_no_merchant_pay rt) as Hnone.
    unfold merchant_pay_calls in Hnone. rewrite Hnone in Hin. contradiction.
  - split; [exact Hm|]. split; [exact Hp|]. exists a, c.
    split; [exact Ha|]. split; [exact Ht|].
    rewrite Hf in Hin. cbn in Hin. destruct Hin as [<-|[]]. exact Hf.
Qed.

Lemma merchant_pay_follows_authentication_witness :
  let request :=
    request_to "POST" "/payment" (inr (sample_payment (party "0340000000"))) in
  let init :=
    merchant_pay_init
      [ ("Authorization", "Bearer abc123");
        ("Version", "1.0");
        ("X-CorrelationID", "123e4567-e89b-42d3-a456-426614174000");
        ("UserLanguage", "mg");
        ("UserAccountIdentifier", "msisdn;0340000000");
        ("partnerName", "Test Partner");
        ("Content-Type", "application/json");
        ("X-Callback-URL", "");
        ("Cache-Control", "no-cache") ]
      (VObj (blanked [ ("amount", VStr "1000");
                       ("currency", VStr "Ar");
                       ("descriptionText", VStr "test");
                       ("debitParty", party "0340000000");
                       ("creditParty", party "0350000000");
                       ("metadata", VArr []);
                       ("requestDate", VStr "2024-01-01T00:00:00.000Z");
                       ("originalTransactionReference", VStr "REF-1") ])) in
  req_method request = "POST"
  /\ pathname (req_url request) = "/payment"
  /\ exists a c,
       outcome (authenticateMvola devapi) = inr a
       /\ truthy a = true
       /\ fetches (trace (fetch devapi request))
          = [ (token_url devapi, token_init c); (merchant_pay_url devapi, init) ].
Proof.
  cbv zeta.
  apply (merchant_pay_follows_authentication devapi).
  vm_compute. left. reflexivity.
Defined.

(** X14.  Only POST /auth and POST /payment reach the provider: a request
    with any other method, or to any other path, makes no outbound call. *)
Theorem no_outbound_call_elsewhere (rt : Runtime) (request : Request) :
  req_method request <> "POST"
    \/ (pathname (req_url request) <> "/auth"
        /\ pathname (req_url request) <> "/payment") ->
  fetches (trace (fetch rt request)) = [].
Proof.
  intros H.
  destruct (fetch_fetches rt request)
    as [Hf | [(Hm & Hp & _) | (Hm & Hp & _)]]; [exact Hf| |].
  - destruct H as [H|[H1 H2]]; [contradiction|].
    destruct Hp; contradiction.
  - destruct H as [H|[H1 H2]]; contradiction.
Qed.

Lemma no_outbound_call_elsewhere_witness :
  fetches (trace (fetch devapi (request_to "POST" "/webhook" (inr (VObj []))))) = [].
Proof.
  apply (no_outbound_call_elsewhere devapi
           (request_to "POST" "/webhook" (inr (VObj [])))).
  right. split; discriminate.
Defined.

(** ** A payment that is sent *)

Lemma read_string a k s : get a (KName k) = inr (VStr s) -> read a k = VStr s.
Proof. intros H. unfold read. now rewrite H. Qed.

(** The header object for a string token and a first debit party whose
    [value] converts to [text]. *)
Lemma payment_headers_built rt props token first rest payer text :
  lookup "debitParty" props = Some (VArr (first :: rest)) ->
  get first (KName "value") = inr payer ->
  toString payer = Some text ->
  payment_headers rt (VObj (blanked props)) (VStr token)
  = inr [ ("Authorization", "Bearer " ++ token);
          ("Version", "1.0");
          ("X-CorrelationID", randomUUID rt);
          ("UserLanguage", "mg");
          ("UserAccountIdentifier", "msisdn;" ++ text);
          ("partnerName", "Test Partner");
          ("Content-Type", "application/json");
          ("X-Callback-URL", "");
          ("Cache-Control", "no-cache") ].
Proof.
  intros Hdp Hv Ht. unfold payment_headers, template, and_then.
  cbn [toString get key_text].
  rewrite lookup_blanked by discriminate. rewrite Hdp.
  change (get (VArr (first :: rest)) (KIndex 0)) with (@inr exn value first).
  cbv beta iota. rewrite Hv, Ht. reflexivity.
Qed.

Lemma fetch_payment_sent rt request a token props hs :
  req_method request = "POST" ->
  pathname (req_url request) = "/payment" ->
  outcome (authenticateMvola rt) = inr a ->
  get a (KName "access_token") = inr (VStr token) ->
  req_json request = inr (VObj props) ->
  payment_headers rt (VObj (blanked props)) (VStr token) = inr hs ->
  let init := merchant_pay_init hs (VObj (blanked props)) in
  merchant_pay_calls rt (fetch rt request) = [init]
  /\ exists r,
       r = match global_fetch rt (merchant_pay_url rt) init with
           | inl e => synthesized e
           | inr res =>
               match res_json res with
               | inl e => synthesized e
               | inr data => passed_through res data
               end
           end
       /\ outcome (fetch rt request)
          = outcome
              (try_catch
                 (lift (new_Response
                          (Some (JSON_stringify (PaymentResult_value r)))
                          (Some (pr_status r))
                          (cors_with_type "application/json")))
                 internal_error).
Proof.
  intros Hm Hp Ha Htok Hj Hh init.
  pose proof (get_string_truthy _ _ _ Htok) as Ht.
  split.
  - rewrite (fetch_payment_calls rt request a _ props Hm Hp Ha Ht Htok Hj).
    now destruct (initiateMvolaPayment_sends _ _ _ _ Hh) as [-> _].
  - destruct (case_payment_object rt request a _ props Hm Ha Ht Htok Hj)
      as (r & Hr & Hcase).
    destruct (initiateMvolaPayment_sends _ _ _ _ Hh) as [_ Hout].
    rewrite Hout in Hr. injection Hr as Hr.
    exists r. split; [now rewrite <- Hr|].
    rewrite fetch_not_options by (rewrite Hm; discriminate).
    rewrite Hp.
    change (dispatch rt request "/payment") with (case_payment rt request).
    rewrite Hcase. unfold lift.
    destruct (new_Response _ _ _); reflexivity.
Qed.





(** X17.  The merchant-pay call of a POST /payment request: method POST,
    [Authorization: Bearer] followed by the [access_token] of the token
    response, the runtime's fresh UUID as [X-CorrelationID],
    [UserAccountIdentifier: msisdn;] followed by the [value] of the first
    debit party, an empty [X-Callback-URL] and the fixed other headers. *)
Theorem merchant_pay_call_headers
  (rt : Runtime) (request : Request) (a : value) (token : string)
  (props : list (string * value)) (first : value) (rest : list value)
  (payer : string) :
  req_method request = "POST" ->
  pathname (req_url request) = "/payment" ->
  outcome (authenticateMvola rt) = inr a ->
  get a (KName "access_token") = inr (VStr token) ->
  req_json request = inr (VObj props) ->
  lookup "debitParty" props = Some (VArr (first :: rest)) ->
  get first (KName "value") = inr (VStr payer) ->
  exists init,
    merchant_pay_calls rt (fetch rt request) = [init]
    /\ init_method init = "POST"
    /\ init_headers init
       = [ ("Authorization", "Bearer " ++ token);
           ("Version", "1.0");
           ("X-CorrelationID", randomUUID rt);
           ("UserLanguage", "mg");
           ("UserAccountIdentifier", "msisdn;" ++ payer);
           ("partnerName", "Test Partner");
           ("Content-Type", "application/json");
           ("X-Callback-URL", "");
           ("Cache-Control", "no-cache") ].
Proof.
  intros Hm Hp Ha Htok Hj Hdp Hv.
  pose proof (payment_headers_built rt props token first rest (VStr payer)
                payer Hdp Hv eq_refl) as Hh.
  destruct (fetch_payment_sent rt request a token props _ Hm Hp Ha Htok Hj Hh)
    as (Hcalls & _).
  eexists. split; [exact Hcalls|split; reflexivity].
Qed.

Lemma merchant_pay_call_headers_witness :
  exists init,
    merchant_pay_calls devapi
         (fetch devapi
            (request_to "POST" "/payment"
               (inr (VObj [ ("debitParty", party "0340000000") ]))))
       = [init]
    /\ init_method init = "POST"
    /\ init_headers init
       = [ ("Authorization", "Bearer " ++ "abc123");
           ("Version", "1.0");
           ("X-CorrelationID", randomUUID devapi);
           ("UserLanguage", "mg");
           ("UserAccountIdentifier", "msisdn;" ++ "0340000000");
           ("partnerName", "Test Partner");
           ("Content-Type", "application/json");
           ("X-Callback-URL", "");
           ("Cache-Control", "no-cache") ].
Proof.
  apply (merchant_pay_call_headers devapi
           (request_to "POST" "/payment"
              (inr (VObj [ ("debitParty", party "0340000000") ])))
           sample_token "abc123"
           [ ("debitParty", party "0340000000") ]
           (VObj [ ("key", VStr "msisdn"); ("value", VStr "0340000000") ]) []
           "0340000000");
    reflexivity.
Defined.

(** X18.  A first debit party that is an object without a [value]
    property does not stop the payment: the call is made, with
    [UserAccountIdentifier: msisdn;undefined]. *)
Theorem missing_payer_value_is_sent_as_undefined
  (rt : Runtime) (request : Request) (a : value) (token : string)
  (props entry : list (string * value)) (rest : list value) :
  req_method request = "POST" ->
  pathname (req_url request) = "/payment" ->
  outcome (authenticateMvola rt) = inr a ->
  get a (KName "access_token") = inr (VStr token) ->
  req_json request = inr (VObj props) ->
  lookup "debitParty" props = Some (VArr (VObj entry :: rest)) ->
  lookup "value" entry = None ->
  exists init,
    merchant_pay_calls rt (fetch rt request) = [init]
    /\ In ("UserAccountIdentifier", "msisdn;undefined") (init_headers init).
Proof.
  intros Hm Hp Ha Htok Hj Hdp Hv.
  assert (Hget : get (VObj entry) (KName "value") = inr VUndefined).
  { cbn. now rewrite Hv. }
  pose proof (payment_headers_built rt props token (VObj entry) rest
                VUndefined "undefined" Hdp Hget eq_refl) as Hh.
  destruct (fetch_payment_sent rt request a token props _ Hm Hp Ha Htok Hj Hh)
    as (Hcalls & _).
  eexists. split; [exact Hcalls|]. cbn. auto 8.
Qed.

Lemma missing_payer_value_is_sent_as_undefined_witness :
  exists init,
    merchant_pay_calls devapi
      (fetch devapi (request_to "POST" "/payment" (inr payment_without_value)))
    = [init]
    /\ In ("UserAccountIdentifier", "msisdn;undefined") (init_headers init).
Proof.
  apply (missing_payer_value_is_sent_as_undefined devapi
           (request_to "POST" "/payment" (inr payment_without_value))
           sample_token "abc123"
           [ ("amount", VStr "1000");
             ("currency", VStr "Ar");
             ("descriptionText", VStr "test");
             ("debitParty", VArr [ VObj [ ("key", VStr "msisdn") ] ]);
             ("creditParty", party "0350000000");
             ("metadata", VArr []) ]
           [ ("key", VStr "msisdn") ] []);
    reflexivity.
Defined.

Lemma map_fst_replace k x props : map fst (replace k x props) = map fst props.
Proof.
  induction props as [|[k' v'] props IH]; cbn; [reflexivity|]. now rewrite IH.
Qed.

Lemma map_fst_assign k x props :
  exists added, map fst (assign k x props) = (map fst props ++ added)%list.
Proof.
  unfold assign. destruct (has_own k props).
  - exists []. now rewrite map_fst_replace, app_nil_r.
  - exists [k]. now rewrite map_app.
Qed.

Lemma map_fst_blanked props :
  exists added, map fst (blanked props) = (map fst props ++ added)%list.
Proof.
  unfold blanked.
  destruct (map_fst_assign "requestDate" (VStr "") props) as [a1 H1].
  destruct (map_fst_assign "requestingOrganisationTransactionReference"
              (VStr "") (assign "requestDate" (VStr "") props)) as [a2 H2].
  destruct (map_fst_assign "originalTransactionReference" (VStr "")
              (assign "requestingOrganisationTransactionReference" (VStr "")
                 (assign "requestDate" (VStr "") props))) as [a3 H3].
  exists (a1 ++ a2 ++ a3)%list. rewrite H3, H2, H1.
  now rewrite <- !app_assoc.
Qed.

(** X19.  Apart from the three correlation fields, the object sent to the
    merchant-pay endpoint is the caller's: its properties keep their order,
    the fields the caller left out are added after them, and every other
    property, known to [MvolaPaymentRequest] or not, is sent with the
    caller's value. *)
Theorem other_properties_are_sent_unchanged
  (rt : Runtime) (request : Request) (props : list (string * value))
  (init : RequestInit) :
  req_method request = "POST" ->
  pathname (req_url request) = "/payment" ->
  req_json request = inr (VObj props) ->
  In init (merchant_pay_calls rt (fetch rt request)) ->
  exists sent added,
    init_body init = BodyText (JSON_stringify (VObj sent))
    /\ map fst sent = (map fst props ++ added)%list
    /\ forall k,
         k <> "requestDate" ->
         k <> "requestingOrganisationTransactionReference" ->
         k <> "originalTransactionReference" ->
         lookup k sent = lookup k props.
Proof.
  intros Hm Hp Hj Hin.
  destruct (authenticateMvola_returns rt) as [a Ha].
  destruct (truthy a) eqn:Ht.
  - destruct (get_truthy a (KName "access_token") Ht) as [tok Htok].
    rewrite (fetch_payment_calls rt request a tok props Hm Hp Ha Ht Htok Hj)
      in Hin.
    destruct (payment_headers rt (VObj (blanked props)) tok) as [e|hs] eqn:Hh.
    + rewrite (initiateMvolaPayment_no_headers _ _ _ _ Hh) in Hin.
      contradiction.
    + destruct (initiateMvolaPayment_sends _ _ _ _ Hh) as [Hcalls _].
      rewrite Hcalls in Hin. destruct Hin as [<-|[]].
      destruct (map_fst_blanked props) as [added Hadded].
      exists (blanked props), added.
      split; [reflexivity|]. split; [exact Hadded|].
      intros k H1 H2 H3. now apply lookup_blanked.
  - rewrite (fetch_payment_unauthenticated_calls rt request a Hm Hp Ha Ht)
      in Hin.
    contradiction.
Qed.

Lemma other_properties_are_sent_unchanged_witness :
  exists sent added,
    init_body
      (merchant_pay_init
         [ ("Authorization", "Bearer abc123");
           ("Version", "1.0");
           ("X-CorrelationID", "123e4567-e89b-42d3-a456-426614174000");
           ("UserLanguage", "mg");
           ("UserAccountIdentifier", "msisdn;0340000000");
           ("partnerName", "Test Partner");
           ("Content-Type", "application/json");
           ("X-Callback-URL", "");
           ("Cache-Control", "no-cache") ]
         (VObj (blanked [ ("debitParty", party "0340000000");
                          ("note", VStr "kept") ])))
    = BodyText (JSON_stringify (VObj sent))
    /\ map fst sent
       = (map fst [ ("debitParty", party "0340000000"); ("note", VStr "kept") ]
            ++ added)%list
    /\ forall k,
         k <> "requestDate" ->
         k <> "requestingOrganisationTransactionReference" ->
         k <> "originalTransactionReference" ->
         lookup k sent
         = lookup k [ ("debitParty", party "0340000000"); ("note", VStr "kept") ].
Proof.
  apply (other_properties_are_sent_unchanged devapi
           (request_to "POST" "/payment"
              (inr (VObj [ ("debitParty", party "0340000000");
                           ("note", VStr "kept") ])))).
  - reflexivity.
  - reflexivity.
  - reflexivity.
  - vm_compute. left. reflexivity.
Defined.

(** ** A payment that is not sent *)

(** X20.  A POST /payment body that is an array, or an object without a
    [debitParty] property, passes the three assignments; reading
    [debitParty[0]] then throws inside [initiateMvolaPayment], which
    catches it: no call is made to the merchant-pay endpoint and the client
    receives status 500 with the body [{status: 500, data: {error}}]. *)
Theorem missing_debit_party_is_caught_by_initiateMvolaPayment
  (rt : Runtime) (request : Request) (a paymentRequest : value)
  (token : string) :
  req_method request = "POST" ->
  pathname (req_url request) = "/payment" ->
  outcome (authenticateMvola rt) = inr a ->
  get a (KName "access_token") = inr (VStr token) ->
  req_json request = inr paymentRequest ->
  (exists items, paymentRequest = VArr items)
    \/ (exists props,
          paymentRequest = VObj props /\ lookup "debitParty" props = None) ->
  fetch rt request
  = ((trace (authenticateMvola rt) ++ [payment_error_line no_debit_party])%list,
     inr {| status := 500;
            headers := cors_with_type "application/json";
            body := Some (JSON_stringify
                            (VObj [ ("status", VNum 500);
                                    ("data",
                                     VObj [ ("error",
                                             VStr (exn_message no_debit_party)) ]) ])) |}).
Proof.
  intros Hm Hp Ha Htok Hj Hshape.
  pose proof (get_string_truthy _ _ _ Htok) as Ht.
  assert (Hp3 : exists p,
             overwritten paymentRequest = inr p
             /\ payment_headers rt p (VStr token) = inl no_debit_party).
  { destruct Hshape as [[items ->] | (props & -> & Hnone)].
    - exists (VArr items). split; reflexivity.
    - exists (VObj (blanked props)). split; [reflexivity|].
      unfold payment_headers, template, and_then.
      cbn [toString get key_text].
      rewrite lookup_blanked by discriminate. rewrite Hnone. reflexivity. }
  destruct Hp3 as (p & Ho & Hh).
  destruct (case_payment_run rt request a paymentRequest p Hm Ha Ht Hj Ho)
    as (r & Hr & Hcase).
  rewrite (read_string _ _ _ Htok) in Hr, Hcase.
  rewrite (initiateMvolaPayment_no_headers _ _ _ _ Hh) in Hr, Hcase.
  injection Hr as <-.
  rewrite fetch_not_options by (rewrite Hm; discriminate).
  rewrite Hp.
  change (dispatch rt request "/payment") with (case_payment rt request).
  rewrite Hcase. reflexivity.
Qed.

Lemma missing_debit_party_is_caught_by_initiateMvolaPayment_witness :
  fetch devapi (request_to "POST" "/payment" (inr (VArr [])))
  = ((trace (authenticateMvola devapi)
        ++ [payment_error_line no_debit_party])%list,
     inr {| status := 500;
            headers := cors_with_type "application/json";
            body := Some (JSON_stringify
                            (VObj [ ("status", VNum 500);
                                    ("data",
                                     VObj [ ("error",
                                             VStr (exn_message no_debit_party)) ]) ])) |}).
Proof.
  apply (missing_debit_party_is_caught_by_initiateMvolaPayment devapi
           (request_to "POST" "/payment" (inr (VArr [])))
           sample_token (VArr []) "abc123");
    try reflexivity.
  left. exists []. reflexivity.
Defined.

(** ** Numbers and headers as the runtime prints them *)

(** A number is printed as the double it is, in the answer of /auth and in
    a payment answer passed through. *)
Example large_expiry_is_printed_as_the_double :
  option_map body
    (match outcome (fetch large_numbers (request_to "POST" "/auth" no_body)) with
     | inr r => Some r
     | inl _ => None
     end)
  = Some (Some ("{" ++ quote "success" ++ ":true,"
                  ++ quote "token" ++ ":" ++ quote "abc123" ++ ","
                  ++ quote "expires_in" ++ ":9223372036854776000}")).
Proof. vm_compute. reflexivity. Qed.

Example exponent_and_fraction_are_passed_through :
  option_map body
    (match outcome
             (fetch large_numbers
                (request_to "POST" "/payment"
                   (inr (sample_payment (party "0340000000"))))) with
     | inr r => Some r
     | inl _ => None
     end)
  = Some (Some ("{" ++ quote "status" ++ ":200,"
                  ++ quote "data" ++ ":{"
                  ++ quote "fee" ++ ":1e+21," ++ quote "rate" ++ ":0.5}}")).
Proof. vm_compute. reflexivity. Qed.

(** The built response keeps every header of the init. *)
Lemma response_headers_keep (r : Response) (h : string * string) :
  In h (headers r) -> In h (response_headers r).
Proof.
  intros H. unfold response_headers.
  destruct (body r); [|exact H].
  destruct (has_header "Content-Type" (headers r)); [exact H|].
  apply in_or_app. now left.
Qed.

(** A text body sent with the cross-origin headers alone, as the 404 and
    the 405 are, leaves with the type of plain text; a body sent with a
    content type keeps it. *)
Example not_found_response_headers :
  option_map response_headers
    (match outcome (fetch devapi (request_to "GET" "/status" no_body)) with
     | inr r => Some r
     | inl _ => None
     end)
  = Some (corsHeaders ++ [ ("Content-Type", "text/plain;charset=UTF-8") ])%list.
Proof. vm_compute. reflexivity. Qed.

Example banner_response_headers :
  option_map response_headers
    (match outcome (fetch devapi (request_to "GET" "/" no_body)) with
     | inr r => Some r
     | inl _ => None
     end)
  = Some (cors_with_type "text/plain").
Proof. vm_compute. reflexivity. Qed.
